(** * PriceWatch: the scraping pipeline and the scheduled batch run

    A shallow embedding of [scraper.py] (class [PriceScraper]) and of
    [scheduler.py] (method [PriceScheduler.scrape_all_products]).

    Conventions of the embedding.
    - A Python [str] is a [string]; a character is read as the code point
      U+0000..U+00FF it denotes.  On that range the regular-expression class
      [\d] is exactly ['0'..'9'].
    - A Python [float] obtained from [float(s)] is the rational number the
      decimal text [s] denotes (type [Q]); the comparisons the scraper makes
      on it are exact.  Python rounds that number to the nearest binary64:
      that is [to_float], and where the code computes with prices (the
      change percentages) the model computes in binary64, with the
      primitive floats of Rocq.
    - [None] is [option]'s [None]; an operation that may raise returns a
      [Result]. *)

From Stdlib Require Import Bool Arith ZArith QArith Qabs List Ascii String Lia.
From Stdlib Require DecimalString.
From Stdlib Require Import Floats.
Import ListNotations.

Open Scope string_scope.

(** ** Python string operations used by the scraper *)

Module PyStr.

Definition code (c : ascii) : nat := nat_of_ascii c.

(** [\d] on U+0000..U+00FF. *)
Definition is_digit (c : ascii) : bool :=
  (48 <=? code c)%nat && (code c <=? 57)%nat.

(** [str.isspace] on U+0000..U+00FF: the characters [str.strip()] removes. *)
Definition is_space (c : ascii) : bool :=
  let n := code c in
  ((9 <=? n) && (n <=? 13) || (28 <=? n) && (n <=? 32)
   || (n =? 133) || (n =? 160))%nat.

(** [str.lower] on one character of U+0000..U+00FF. *)
Definition lower_char (c : ascii) : ascii :=
  let n := code c in
  if ((65 <=? n) && (n <=? 90)
      || (192 <=? n) && (n <=? 222) && negb (n =? 215))%nat
  then ascii_of_nat (n + 32) else c.

Fixpoint lower (s : string) : string :=
  match s with
  | "" => ""
  | String c s' => String (lower_char c) (lower s')
  end.

Fixpoint lstrip (s : string) : string :=
  match s with
  | "" => ""
  | String c s' => if is_space c then lstrip s' else s
  end.

Fixpoint rstrip (s : string) : string :=
  match s with
  | "" => ""
  | String c s' =>
      match rstrip s' with
      | "" => if is_space c then "" else String c ""
      | r => String c r
      end
  end.

(** [s.strip()] *)
Definition strip (s : string) : string := rstrip (lstrip s).

(** [c in s] for a one-character [c]. *)
Fixpoint contains_char (c : ascii) (s : string) : bool :=
  match s with
  | "" => false
  | String a s' => Ascii.eqb a c || contains_char c s'
  end.

(** [sub in s] *)
Fixpoint contains (sub s : string) : bool :=
  prefix sub s ||
  match s with
  | "" => false
  | String _ s' => contains sub s'
  end.

(** [s.rindex(c)]: the highest index of [c]; [None] where Python raises
    [ValueError]. *)
Fixpoint rindex (c : ascii) (s : string) : option nat :=
  match s with
  | "" => None
  | String a s' =>
      match rindex c s' with
      | Some i => Some (S i)
      | None => if Ascii.eqb a c then Some 0%nat else None
      end
  end.

(** [s.split(sep)] for a one-character separator. *)
Fixpoint split (sep : ascii) (s : string) : list string :=
  match s with
  | "" => [""]
  | String a s' =>
      if Ascii.eqb a sep then "" :: split sep s'
      else match split sep s' with
           | h :: t => String a h :: t
           | [] => [String a ""]
           end
  end.

(** [s.replace(old, new)] for a non-empty [old]: occurrences are replaced
    left to right without overlap.  [skip] counts the characters of an
    occurrence just replaced that are still to be passed over. *)
Fixpoint replace_from (old new : string) (skip : nat) (s : string) : string :=
  match s with
  | "" => ""
  | String c s' =>
      match skip with
      | S k => replace_from old new k s'
      | O =>
          if prefix old s
          then new ++ replace_from old new (String.length old - 1) s'
          else String c (replace_from old new 0 s')
      end
  end.

Definition replace (old new s : string) : string := replace_from old new 0 s.

(** [re.sub(r'[^\d.,]', '', s)] *)
Fixpoint keep_price_chars (s : string) : string :=
  match s with
  | "" => ""
  | String c s' =>
      if is_digit c || Ascii.eqb c "." || Ascii.eqb c ","
      then String c (keep_price_chars s')
      else keep_price_chars s'
  end.

(** The longest prefix of decimal digits, and what follows it. *)
Fixpoint span_digits (s : string) : string * string :=
  match s with
  | "" => ("", "")
  | String c s' =>
      if is_digit c
      then let (d, r) := span_digits s' in (String c d, r)
      else ("", s)
  end.

(** The number a string of decimal digits denotes, most significant first. *)
Fixpoint digits_value (acc : Z) (s : string) : Z :=
  match s with
  | "" => acc
  | String c s' => digits_value (10 * acc + Z.of_nat (code c - 48)) s'
  end.

(** [float(s)] for a text made of digits and periods, which is all that
    [_clean_price_text] ever passes: digits with at most one period and at
    least one digit denote a number, everything else raises [ValueError]
    ([None]). *)
Definition py_float (s : string) : option Q :=
  let (a, r) := span_digits s in
  match r with
  | "" => if String.eqb a "" then None else Some (digits_value 0 a # 1)
  | String c r' =>
      if Ascii.eqb c "." then
        let (b, r'') := span_digits r' in
        match r'' with
        | "" =>
            if String.eqb a "" && String.eqb b "" then None
            else Some (digits_value 0 (a ++ b)
                       # Z.to_pos (10 ^ Z.of_nat (String.length b)))
        | _ => None
        end
      else None
  end.

End PyStr.

Import PyStr.

(** ** [scraper.py]: class [PriceScraper] *)

(** The text [_clean_price_text] hands to [float]: the branches on the
    separators, lines 89 to 104. *)
Definition normalize_separators (cleaned : string) : string :=
  if contains_char "," cleaned && contains_char "." cleaned then
    match rindex "," cleaned, rindex "." cleaned with
    | Some i, Some j =>
        if (i <? j)%nat
        then replace "," "" cleaned
        else replace "," "." (replace "." "" cleaned)
    | _, _ => cleaned (* not reached: both characters occur *)
    end
  else if contains_char "," cleaned then
    let parts := split "," cleaned in
    if (List.length parts =? 2)%nat
       && (String.length (nth 1 parts "") <=? 2)%nat
    then replace "," "." cleaned
    else replace "," "" cleaned
  else cleaned.

(** [re.sub(r'[^\d.,]', '', price_text.strip())] *)
Definition cleaned_of (price_text : string) : string :=
  keep_price_chars (strip price_text).

Definition _clean_price_text (price_text : string) : option Q :=
  if String.eqb price_text "" then None
  else py_float (normalize_separators (cleaned_of price_text)).

(** An operation that may raise: [Raise msg] carries [str(e)]. *)
Inductive Result (A : Type) : Type :=
| Ok (a : A)
| Raise (msg : string).
Arguments Ok {A} a.
Arguments Raise {A} msg.

(** Python truthiness of an optional float: [None] and [0.0] are false. *)
Definition truthy (price : option Q) : bool :=
  match price with
  | Some p => negb (Qeq_bool p 0)
  | None => false
  end.

(** [x < y] on prices. *)
Definition Qlt_bool (x y : Q) : bool := negb (Qle_bool y x).

(** A text between double quotes, as the attribute selectors have it. *)
Definition quoted (s : string) : string :=
  String (ascii_of_nat 34) s ++ String (ascii_of_nat 34) "".

(** [self.price_selectors]: a dict, iterated in insertion order. *)
Definition price_selectors : list (string * list string) :=
  [ ("amazon.com",
      [".a-price-whole"; ".a-offscreen"; "#priceblock_dealprice";
       "#priceblock_ourprice"; ".a-price .a-offscreen"]);
    ("ebay.com",
      [".u-flL.condText"; ".us-pvr-price"; "#mm-saleDscPrc"; ".bold"]);
    ("etsy.com",
      [".currency-value"; ".shop2-review-review-header-currency-value"]);
    ("walmart.com",
      ["[data-testid=" ++ quoted "price-current" ++ "]"; ".price-current";
       "[itemprop=" ++ quoted "price" ++ "]"]);
    ("target.com",
      ["[data-test=" ++ quoted "product-price" ++ "]"; ".h-display-xs"]);
    ("bestbuy.com",
      [".pricing-price__range"; ".sr-only"]) ].

(** The default generic selectors, lines 70 to 78. *)
Definition generic_selectors : list string :=
  [".price"; "[class*=" ++ quoted "price" ++ "]";
   "[id*=" ++ quoted "price" ++ "]";
   "[data-testid*=" ++ quoted "price" ++ "]";
   ".amount"; ".cost"; ".value"].

(** The four [price_patterns] of [_fallback_price_extraction]. *)
Definition price_patterns : list string :=
  ["\$\s*(\d{1,3}(?:,\d{3})*(?:\.\d{2})?)";
   "(\d{1,3}(?:,\d{3})*(?:\.\d{2})?)\s*\$";
   "USD\s*(\d{1,3}(?:,\d{3})*(?:\.\d{2})?)";
   "(\d{1,3}(?:,\d{3})*(?:\.\d{2})?)\s*USD"].

(** The result dict of [scrape_price]. *)
Record ScrapeResult : Type := mkScrapeResult {
  sr_url : string;
  sr_price : option Q;
  sr_success : bool;
  sr_error : option string;
  sr_timestamp : nat
}.

(** What the browser does during one call of [scrape_price]: the outcome of
    each Playwright call the method makes. *)
Record PageEnv : Type := mkPageEnv {
  pw_start : Result unit;            (* async_playwright().__aenter__ *)
  pw_launch : Result unit;           (* p.chromium.launch *)
  pw_new_context : Result unit;      (* browser.new_context *)
  pw_new_page : Result unit;         (* context.new_page *)
  pw_goto : Result unit;             (* page.goto *)
  pw_networkidle : Result unit;      (* page.wait_for_load_state *)
  (* page.query_selector_all, and element.inner_text of each element *)
  pw_query_selector_all : string -> Result (list (Result string));
  (* page.content, parsed and reduced to its text by BeautifulSoup *)
  pw_page_text : Result string;
  pw_browser_close : Result unit;    (* browser.close *)
  pw_time : nat                      (* time.time() *)
}.

(** What exists on the machine while [scrape_price] runs. *)
Record Resources : Type := mkResources {
  driver_running : bool;
  browser_open : bool;
  context_open : bool;
  page_open : bool
}.

Definition no_resources : Resources := mkResources false false false false.

(** The state [scrape_price] works on: the resources and its [result]
    dict, which it updates in place. *)
Record ScrapeState : Type := mkScrapeState {
  resources : Resources;
  result : ScrapeResult
}.

(** A small state and exception monad: the state a method works on is
    updated in place, so the updates made before an exception are kept. *)
Module Exn.

Definition M (St A : Type) : Type := St -> Result A * St.

Definition ret {St A} (a : A) : M St A := fun st => (Ok a, st).

Definition bind {St A B} (m : M St A) (k : A -> M St B) : M St B :=
  fun st =>
    match m st with
    | (Ok a, st') => k a st'
    | (Raise msg, st') => (Raise msg, st')
    end.

(** An external call with a scripted outcome. *)
Definition call {St A} (r : Result A) : M St A := fun st => (r, st).

Definition modify {St} (f : St -> St) : M St unit :=
  fun st => (Ok tt, f st).

(** [try: body except Exception as e: handler(str(e))] *)
Definition try_except {St A} (body : M St A) (handler : string -> M St A)
  : M St A :=
  fun st =>
    match body st with
    | (Ok a, st') => (Ok a, st')
    | (Raise msg, st') => handler msg st'
    end.

End Exn.

Notation "x <- m ;; k" := (Exn.bind m (fun x => k))
  (at level 61, m at next level, right associativity).
Notation "m ;;; k" := (Exn.bind m (fun _ => k))
  (at level 61, right associativity).

Definition on_resources (f : Resources -> Resources) (st : ScrapeState)
  : ScrapeState :=
  mkScrapeState (f (resources st)) (result st).

Definition on_result (f : ScrapeResult -> ScrapeResult) (st : ScrapeState)
  : ScrapeState :=
  mkScrapeState (resources st) (f (result st)).

Definition started_driver (r : Resources) : Resources :=
  mkResources true (browser_open r) (context_open r) (page_open r).

(** Stopping the Playwright driver ends every browser it launched, with
    their contexts and pages. *)
Definition stopped_driver (r : Resources) : Resources :=
  mkResources false false false false.

(** [async with async_playwright() as p: body]: the driver is started, and
    stopped when the block is left, by its end or by an exception. *)
Definition with_playwright {A} (start : Result unit)
    (body : Exn.M ScrapeState A) : Exn.M ScrapeState A :=
  fun st =>
    match start with
    | Raise msg => (Raise msg, st)
    | Ok _ =>
        let (r, st') := body (on_resources started_driver st) in
        (r, on_resources stopped_driver st')
    end.

(** *** Selector resolution *)

Section Selectors.

(** [urlparse(url).netloc] of the standard library's [urllib.parse]; it
    raises [ValueError] on some malformed URLs. *)
Variable urlparse_netloc : string -> Result string.

Definition _get_domain (url : string) : string :=
  match urlparse_netloc url with
  | Ok netloc => replace "www." "" (lower netloc)
  | Raise _ => ""
  end.

(** The loop over [self.price_selectors.items()], lines 65 to 67. *)
Fixpoint site_selectors (table : list (string * list string))
    (domain : string) : option (list string) :=
  match table with
  | [] => None
  | (site, selectors) :: rest =>
      if contains site domain then Some selectors
      else site_selectors rest domain
  end.

(** [custom_selector] is [None] or a string; [None] and the empty string
    are false. *)
Definition _get_price_selectors (url : string)
    (custom_selector : option string) : list string :=
  match custom_selector with
  | Some (String c s) => [String c s]
  | _ =>
      match site_selectors price_selectors (_get_domain url) with
      | Some selectors => selectors
      | None => generic_selectors
      end
  end.

(** *** The selector cascade and the text fallback *)

(** The loop over [elements], lines 156 to 163: [Ok (Some p)] when it
    breaks with [price = p], [Raise] when [inner_text] raises. *)
Fixpoint first_price_in (elements : list (Result string))
  : Result (option Q) :=
  match elements with
  | [] => Ok None
  | Raise msg :: _ => Raise msg
  | Ok text :: rest =>
      let extracted_price := _clean_price_text text in
      match extracted_price with
      | Some p =>
          if truthy extracted_price && Qlt_bool 0 p
          then Ok (Some p)
          else first_price_in rest
      | None => first_price_in rest
      end
  end.

(** The loop over [selectors], lines 152 to 170; an exception inside one
    selector's [try] moves on to the next selector. *)
Fixpoint try_selectors (query : string -> Result (list (Result string)))
    (selectors : list string) : option Q :=
  match selectors with
  | [] => None
  | selector :: rest =>
      match query selector with
      | Raise _ => try_selectors query rest
      | Ok elements =>
          match first_price_in elements with
          | Raise _ => try_selectors query rest
          | Ok price =>
              if truthy price then price else try_selectors query rest
          end
      end
  end.

(** [re.findall(pattern, text)] of the standard library. *)
Variable re_findall : string -> string -> list string.

(** The loop over [matches], lines 217 to 220. *)
Fixpoint first_plausible (matches : list string) : option Q :=
  match matches with
  | [] => None
  | m :: rest =>
      let price := _clean_price_text m in
      match price with
      | Some p =>
          if truthy price && Qle_bool 0.01 p && Qle_bool p 999999
          then Some p
          else first_plausible rest
      | None => first_plausible rest
      end
  end.

(** The loop over [price_patterns], lines 215 to 220. *)
Fixpoint scan_patterns (patterns : list string) (text : string)
  : option Q :=
  match patterns with
  | [] => None
  | pattern :: rest =>
      match first_plausible (re_findall pattern text) with
      | Some p => Some p
      | None => scan_patterns rest text
      end
  end.

Definition _fallback_price_extraction (page : PageEnv) : option Q :=
  match pw_page_text page with
  | Ok text => scan_patterns price_patterns text
  | Raise _ => None
  end.

(** [_wait_for_page_load]: a timeout is logged, never raised. *)
Definition _wait_for_page_load (page : PageEnv) : Exn.M ScrapeState unit :=
  Exn.try_except (Exn.call (pw_networkidle page))
    (fun _ => Exn.ret tt).

Definition set_price (p : option Q) (r : ScrapeResult) : ScrapeResult :=
  mkScrapeResult (sr_url r) p true (sr_error r) (sr_timestamp r).

Definition set_error (msg : string) (r : ScrapeResult) : ScrapeResult :=
  mkScrapeResult (sr_url r) (sr_price r) (sr_success r) (Some msg)
    (sr_timestamp r).

Definition opened_browser (r : Resources) : Resources :=
  mkResources (driver_running r) true (context_open r) (page_open r).

Definition opened_context (r : Resources) : Resources :=
  mkResources (driver_running r) (browser_open r) true (page_open r).

Definition opened_page (r : Resources) : Resources :=
  mkResources (driver_running r) (browser_open r) (context_open r) true.

(** [browser.close()] closes the browser with its contexts and pages. *)
Definition closed_browser (r : Resources) : Resources :=
  mkResources (driver_running r) false false false.

(** The block under [async with], lines 135 to 184. *)
Definition scrape_block (page : PageEnv) (url : string)
    (css_selector : option string) : Exn.M ScrapeState unit :=
  Exn.call (pw_launch page) ;;;
  Exn.modify (on_resources opened_browser) ;;;
  Exn.call (pw_new_context page) ;;;
  Exn.modify (on_resources opened_context) ;;;
  Exn.call (pw_new_page page) ;;;
  Exn.modify (on_resources opened_page) ;;;
  Exn.call (pw_goto page) ;;;
  _wait_for_page_load page ;;;
  let selectors := _get_price_selectors url css_selector in
  let price := try_selectors (pw_query_selector_all page) selectors in
  let price :=
    if negb (truthy price) then _fallback_price_extraction page else price in
  (if truthy price
   then Exn.modify (on_result (set_price price))
   else Exn.modify
          (on_result (set_error "No price found with any selector")))
  ;;;
  Exn.call (pw_browser_close page) ;;;
  Exn.modify (on_resources closed_browser).

(** [scrape_price], run from the state [st]: the final state and the dict
    it returns. *)
Definition scrape_price_from (rs : Resources) (page : PageEnv)
    (url : string) (css_selector : option string)
  : Result ScrapeResult * ScrapeState :=
  let st := mkScrapeState rs
              (mkScrapeResult url None false None (pw_time page)) in
  (Exn.try_except
     (with_playwright (pw_start page)
        (scrape_block page url css_selector))
     (fun e =>
        Exn.modify
          (on_result (set_error ("Scraping error for " ++ url ++ ": " ++ e)))) ;;;
   (fun st' => (Ok (result st'), st'))) st.

Definition scrape_price (page : PageEnv) (url : string)
    (css_selector : option string) : Result ScrapeResult :=
  fst (scrape_price_from no_resources page url css_selector).

End Selectors.

(** *** [scrape_multiple] *)

Section ScrapeMultiple.

(** What awaiting [scrape_with_semaphore(url)] gives for the [i]-th URL:
    the dict [scrape_price] returns, or the exception that left it. *)
Variable run_task : nat -> string -> Result ScrapeResult.

(** [time.time()] *)
Variable now : nat.

(** [asyncio.gather] with [return_exceptions=True]: one entry per task,
    in the order of [tasks], an exception standing where its task raised. *)
Fixpoint gather_from (i : nat) (urls : list string)
  : list (Result ScrapeResult) :=
  match urls with
  | [] => []
  | url :: rest => run_task i url :: gather_from (S i) rest
  end.

(** The loop over [enumerate(results)], lines 240 to 250; [urls[i]] out
    of range raises [IndexError]. *)
Fixpoint process_results (urls : list string) (i : nat)
    (results : list (Result ScrapeResult))
    (processed_results : list ScrapeResult) : Result (list ScrapeResult) :=
  match results with
  | [] => Ok processed_results
  | Ok d :: rest =>
      process_results urls (S i) rest (processed_results ++ [d])
  | Raise e :: rest =>
      match nth_error urls i with
      | Some url =>
          process_results urls (S i) rest
            (processed_results ++ [mkScrapeResult url None false (Some e) now])
      | None => Raise "list index out of range"
      end
  end.

Definition scrape_multiple (urls : list string) : Result (list ScrapeResult) :=
  process_results urls 0 (gather_from 0 urls) [].

End ScrapeMultiple.

(** ** [scheduler.py]: [PriceScheduler.scrape_all_products] *)

(** The binary64 float nearest to a rational, ties going to the even
    mantissa: the float Python's [float(s)] is, for the number the decimal
    text [s] denotes. *)
Definition to_float (q : Q) : float :=
  match Qnum q with
  | Z0 => 0%float
  | Zpos n =>
      SF2Prim (SFdiv prec emax (S754_finite false n 0)
                 (S754_finite false (Qden q) 0))
  | Zneg n =>
      SF2Prim (SFdiv prec emax (S754_finite true n 0)
                 (S754_finite false (Qden q) 0))
  end.

(** A row of the [products] table. *)
Record Product : Type := mkProduct {
  product_url : string;
  product_label : string;
  product_css_selector : option string
}.

(** The [change_info] dict. *)
Record ChangeInfo : Type := mkChangeInfo {
  ci_product : string;
  ci_url : string;
  ci_previous_price : float;
  ci_current_price : float;
  ci_change_amount : float;
  ci_change_percentage : float;
  ci_timestamp : nat
}.

(** The [results] dict. *)
Record Results : Type := mkResults {
  products_scraped : nat;
  successful : nat;
  failed : nat;
  errors : list string;
  price_changes : list ChangeInfo
}.

(** [self.stats] *)
Record Stats : Type := mkStats {
  total_scrapes : nat;
  successful_scrapes : nat;
  failed_scrapes : nat;
  notifications_sent : nat;
  last_run : option nat
}.

(** The scheduler's settings: [notification_manager] is [false] when it
    is [None] ([enable_notifications=False]). *)
Record Config : Type := mkConfig {
  notification_manager : bool;
  notification_threshold : float
}.

(** The defaults of [PriceScheduler.__init__]: notifications enabled and
    a threshold of 5.0 percent. *)
Definition default_config : Config := mkConfig true 5%float.

(** What the collaborators do while one product is processed. *)
Record ItemEnv : Type := mkItemEnv {
  (* self.db.get_latest_price(url), reduced to its price *)
  db_get_latest_price : Result (option float);
  (* the page scrape_sync loads *)
  item_page : PageEnv;
  (* self.db.add_price(url, price) *)
  db_add_price : Result unit;
  (* self.notification_manager.send_price_change_notification(change_info) *)
  send_price_change_notification : Result bool;
  (* datetime.now() *)
  item_now : nat
}.

(** The state a batch run works on: its [results], [self.stats], the rows
    it appended to the [prices] table, the change events it handed to the
    notification manager and the summaries it handed to it. *)
Record RunState : Type := mkRunState {
  results : Results;
  stats : Stats;
  stored : list (string * Q);
  handed : list ChangeInfo;
  summaries : list Results
}.

Definition on_results (f : Results -> Results) (st : RunState) : RunState :=
  mkRunState (f (results st)) (stats st) (stored st) (handed st)
    (summaries st).

Definition on_stats (f : Stats -> Stats) (st : RunState) : RunState :=
  mkRunState (results st) (f (stats st)) (stored st) (handed st)
    (summaries st).

Definition store (url : string) (price : Q) (st : RunState) : RunState :=
  mkRunState (results st) (stats st) (stored st ++ [(url, price)])
    (handed st) (summaries st).

Definition hand (c : ChangeInfo) (st : RunState) : RunState :=
  mkRunState (results st) (stats st) (stored st) (handed st ++ [c])
    (summaries st).

Definition hand_summary (st : RunState) : RunState :=
  mkRunState (results st) (stats st) (stored st) (handed st)
    (summaries st ++ [results st]).

Definition incr_successful (r : Results) : Results :=
  mkResults (products_scraped r) (S (successful r)) (failed r) (errors r)
    (price_changes r).

Definition incr_failed (r : Results) : Results :=
  mkResults (products_scraped r) (successful r) (S (failed r)) (errors r)
    (price_changes r).

Definition add_error (msg : string) (r : Results) : Results :=
  mkResults (products_scraped r) (successful r) (failed r)
    (errors r ++ [msg]) (price_changes r).

Definition add_change (c : ChangeInfo) (r : Results) : Results :=
  mkResults (products_scraped r) (successful r) (failed r) (errors r)
    (price_changes r ++ [c]).

Definition count_scrape (success : bool) (s : Stats) : Stats :=
  mkStats (S (total_scrapes s))
    (if success then S (successful_scrapes s) else successful_scrapes s)
    (if success then failed_scrapes s else S (failed_scrapes s))
    (notifications_sent s) (last_run s).

Definition count_notification (s : Stats) : Stats :=
  mkStats (total_scrapes s) (successful_scrapes s) (failed_scrapes s)
    (S (notifications_sent s)) (last_run s).

Definition set_last_run (t : nat) (s : Stats) : Stats :=
  mkStats (total_scrapes s) (successful_scrapes s) (failed_scrapes s)
    (notifications_sent s) (Some t).

(** [str(x)] of an optional text. *)
Definition str_of (x : option string) : string :=
  match x with
  | Some s => s
  | None => "None"
  end.

Section Scheduler.

Variable urlparse_netloc : string -> Result string.
Variable re_findall : string -> string -> list string.

(** [self.scraper.scrape_sync]: [asyncio.run] of [scrape_price]. *)
Definition scrape_sync (page : PageEnv) (url : string)
    (css_selector : option string) : Result ScrapeResult :=
  scrape_price urlparse_netloc re_findall page url css_selector.

Variable cfg : Config.

(** [((current_price - previous_price) / previous_price) * 100], in
    binary64; a float division by zero raises [ZeroDivisionError]. *)
Definition price_change_of (current_price previous_price : float)
  : Result float :=
  if PrimFloat.eqb previous_price 0 then Raise "float division by zero"
  else Ok (((current_price - previous_price) / previous_price) * 100)%float.

(** Lines 131 to 150: the threshold test and what follows it. *)
Definition check_change (env : ItemEnv) (product : Product)
    (previous_price current_price : float) : Exn.M RunState unit :=
  price_change <- Exn.call (price_change_of current_price previous_price) ;;
  if PrimFloat.leb (notification_threshold cfg) (PrimFloat.abs price_change)
  then
    let change_info :=
      mkChangeInfo (product_label product) (product_url product)
        previous_price current_price
        (current_price - previous_price)%float
        price_change (item_now env) in
    Exn.modify (on_results (add_change change_info)) ;;;
    if notification_manager cfg then
      Exn.try_except
        (Exn.modify (hand change_info) ;;;
         Exn.call (send_price_change_notification env) ;;;
         Exn.modify (on_stats count_notification))
        (fun _ => Exn.ret tt)
    else Exn.ret tt
  else Exn.ret tt.

(** Lines 109 to 166: the body of the [try] for one product. *)
Definition process_body (env : ItemEnv) (product : Product)
  : Exn.M RunState unit :=
  previous_price <- Exn.call (db_get_latest_price env) ;;
  scrape_result <-
    Exn.call (scrape_sync (item_page env) (product_url product)
                (product_css_selector product)) ;;
  (if sr_success scrape_result then
     current_price <-
       Exn.call (match sr_price scrape_result with
                 | Some p => Ok p
                 | None => Raise "NOT NULL constraint failed: prices.price"
                 end) ;;
     Exn.call (db_add_price env) ;;;
     Exn.modify (store (product_url product) current_price) ;;;
     Exn.modify (on_results incr_successful) ;;;
     match previous_price with
     | Some previous =>
         check_change env product previous (to_float current_price)
     | None => Exn.ret tt
     end
   else
     Exn.modify (on_results incr_failed) ;;;
     Exn.modify
       (on_results
          (add_error ("Failed to scrape " ++ product_label product ++ ": "
                      ++ str_of (sr_error scrape_result))))) ;;;
  Exn.modify (on_stats (count_scrape (sr_success scrape_result))).

(** Lines 108 to 172: one turn of the loop, with its [except]. *)
Definition process_product (env : ItemEnv) (product : Product)
  : Exn.M RunState unit :=
  Exn.try_except (process_body env product)
    (fun e =>
       Exn.modify (on_results incr_failed) ;;;
       Exn.modify
         (on_results
            (add_error ("Exception scraping " ++ product_label product
                        ++ ": " ++ e)))).

(** What the collaborators do during one batch run. *)
Variable env : Product -> ItemEnv.
(** [send_scraping_summary(results)] and the [datetime.now()] after the
    loop. *)
Variable send_scraping_summary : Result bool.
Variable end_time : nat.

Fixpoint for_products (products : list Product) : Exn.M RunState unit :=
  match products with
  | [] => Exn.ret tt
  | product :: rest => process_product (env product) product ;;; for_products rest
  end.

(** Lines 174 to 187: what follows the loop. *)
Definition finish_run : Exn.M RunState Results :=
  Exn.modify (on_stats (set_last_run end_time)) ;;;
  (fun st =>
     (if match price_changes (results st) with [] => false | _ => true end
         && notification_manager cfg
      then Exn.try_except
             (Exn.modify hand_summary ;;;
              Exn.call send_scraping_summary ;;; Exn.ret tt)
             (fun _ => Exn.ret tt)
      else Exn.ret tt) st) ;;;
  (fun st => (Ok (results st), st)).

(** [scrape_all_products] over the [products] the database holds, from the
    statistics [stats0]: the dict it returns and the state it leaves.  With
    no product it returns at once, with all counts 0. *)
Definition scrape_all_products (stats0 : Stats) (products : list Product)
  : Result Results * RunState :=
  let st0 := mkRunState (mkResults (List.length products) 0 0 [] [])
               stats0 [] [] [] in
  match products with
  | [] => (Ok (results st0), st0)
  | _ => (for_products products ;;; finish_run) st0
  end.

End Scheduler.

(** ** [database.py]: the price history *)

(** A [PriceEntry]. *)
Record PriceEntry : Type := mkPriceEntry {
  pe_id : option nat;
  pe_url : string;
  pe_price : float;
  pe_timestamp : nat;
  pe_product_id : option nat
}.

(** What the query of [get_prices] does, before its [LIMIT]: it gives the
    rows of the URL, newest first; or SQLite raises [sqlite3.Error]; or
    building an entry raises something else, as [fromisoformat] does on a
    malformed timestamp. *)
Inductive QueryOutcome : Type :=
| Rows (entries : list PriceEntry)
| SqliteError (msg : string)
| OtherError (msg : string).

(** The dict [get_price_change] returns. *)
Record PriceChange : Type := mkPriceChange {
  pc_current_price : float;
  pc_previous_price : float;
  pc_change_amount : float;
  pc_change_percentage : float;
  pc_timestamp : nat
}.

Section Database.

Variable query_prices : string -> QueryOutcome.

(** [get_prices(url, limit)]: an [sqlite3.Error] is logged and gives the
    empty list. *)
Definition get_prices (url : string) (limit : nat)
  : Result (list PriceEntry) :=
  match query_prices url with
  | Rows entries => Ok (firstn limit entries)
  | SqliteError _ => Ok []
  | OtherError msg => Raise msg
  end.

Definition get_latest_price (url : string) : Result (option PriceEntry) :=
  match get_prices url 1 with
  | Ok (entry :: _) => Ok (Some entry)
  | Ok [] => Ok None
  | Raise msg => Raise msg
  end.

(** [get_price_change]: every exception of its body, the division by a
    previous price of 0 among them, is logged and gives [None]. *)
Definition get_price_change (url : string) : option PriceChange :=
  match get_prices url 2 with
  | Raise _ => None
  | Ok prices =>
      if (List.length prices <? 2)%nat then None
      else
        match nth_error prices 0, nth_error prices 1 with
        | Some current, Some previous =>
            let change_amount :=
              (pe_price current - pe_price previous)%float in
            if PrimFloat.eqb (pe_price previous) 0 then None
            else
              Some (mkPriceChange (pe_price current) (pe_price previous)
                      change_amount
                      ((change_amount / pe_price previous) * 100)%float
                      (pe_timestamp current))
        | _, _ => None
        end
  end.

End Database.

(** ** [notifier.py]: the notification manager *)

(** The line feed. *)
Definition nl : string := String (ascii_of_nat 10) "".

(** [str(n)] of a count. *)
Definition str_nat (n : nat) : string :=
  DecimalString.NilZero.string_of_uint (Nat.to_uint n).

(** Python truthiness of an optional text, and [x or y]. *)
Definition str_truthy (x : option string) : bool :=
  match x with
  | Some (String _ _) => true
  | _ => false
  end.

Definition py_or (x y : option string) : option string :=
  if str_truthy x then x else y.

Record EmailNotifier : Type := mkEmailNotifier {
  smtp_server : string;
  smtp_port : nat;
  en_email : string;
  en_password : string;
  en_enabled : bool
}.

(** [api_url] exists only when the notifier is enabled. *)
Record TelegramNotifier : Type := mkTelegramNotifier {
  bot_token : string;
  chat_id : string;
  tn_enabled : bool;
  api_url : option string
}.

Record NotificationManager : Type := mkNotificationManager {
  email_notifier : EmailNotifier;
  telegram_notifier : TelegramNotifier;
  recipient_email : string
}.

(** The [email_config] and [telegram_config] dicts: the keyword arguments
    they hold; a key that is present holds a value of its type. *)
Record EmailConfig : Type := mkEmailConfig {
  ec_smtp_server : option string;
  ec_smtp_port : option nat;
  ec_email : option string;
  ec_password : option string
}.

Record TelegramConfig : Type := mkTelegramConfig {
  tc_bot_token : option string;
  tc_chat_id : option string
}.

(** What leaves the machine: a mail handed to the SMTP server, or a
    message posted to the Telegram API. *)
Inductive Delivery : Type :=
| EmailTo (sender to_email subject body : string) (is_html : bool)
| TelegramPost (url chat text parse_mode : string).

(** The dict [get_status] returns. *)
Record Status : Type := mkStatus {
  st_email_enabled : bool;
  st_telegram_enabled : bool;
  st_email_configured : bool;
  st_telegram_configured : bool;
  st_recipient_email : string;
  st_has_notification_method : bool
}.

Definition non_empty (s : string) : bool := negb (String.eqb s "").

Module Notifier.

Section Methods.

(** [os.getenv], Python's [format(x, spec)] of a float, and
    [strftime]. *)
Variable getenv : string -> option string.
Variable format_float : string -> float -> string.
Variable strftime : string -> nat -> string.
(** The bullet of the summaries, the character U+2022. *)
Variable bullet : string.

(** [arg or os.getenv(name) or ''] *)
Definition from_env (arg : option string) (name : string) : string :=
  match py_or (py_or arg (getenv name)) (Some "") with
  | Some s => s
  | None => ""
  end.

Definition EmailNotifier_init (server : string) (port : nat)
    (email password : option string) : EmailNotifier :=
  let email := from_env email "EMAIL_ADDRESS" in
  let password := from_env password "EMAIL_PASSWORD" in
  mkEmailNotifier server port email password
    (negb (negb (non_empty email) || negb (non_empty password))).

Definition TelegramNotifier_init (token chat : option string)
  : TelegramNotifier :=
  let token := from_env token "TELEGRAM_BOT_TOKEN" in
  let chat := from_env chat "TELEGRAM_CHAT_ID" in
  if negb (non_empty token) || negb (non_empty chat)
  then mkTelegramNotifier token chat false None
  else mkTelegramNotifier token chat true
         (Some ("https://api.telegram.org/bot" ++ token)).

(** A dict is false when it is empty. *)
Definition email_config_truthy (c : EmailConfig) : bool :=
  match ec_smtp_server c, ec_smtp_port c, ec_email c, ec_password c with
  | None, None, None, None => false
  | _, _, _, _ => true
  end.

Definition telegram_config_truthy (c : TelegramConfig) : bool :=
  match tc_bot_token c, tc_chat_id c with
  | None, None => false
  | _, _ => true
  end.

Definition default_email_notifier : EmailNotifier :=
  EmailNotifier_init "smtp.gmail.com" 587 None None.

Definition NotificationManager_init (email_config : option EmailConfig)
    (telegram_config : option TelegramConfig)
    (recipient : option string) : NotificationManager :=
  mkNotificationManager
    (match email_config with
     | Some c =>
         if email_config_truthy c then
           EmailNotifier_init
             (match ec_smtp_server c with
              | Some v => v
              | None => "smtp.gmail.com"
              end)
             (match ec_smtp_port c with
              | Some v => v
              | None => 587
              end)
             (ec_email c) (ec_password c)
         else default_email_notifier
     | None => default_email_notifier
     end)
    (match telegram_config with
     | Some c =>
         if telegram_config_truthy c
         then TelegramNotifier_init (tc_bot_token c) (tc_chat_id c)
         else TelegramNotifier_init None None
     | None => TelegramNotifier_init None None
     end)
    (from_env recipient "RECIPIENT_EMAIL").

(** [send_email]: [smtp] is what building and sending the mail does. *)
Definition send_email (n : EmailNotifier) (smtp : Result unit)
    (to_email subject body : string) (is_html : bool)
  : Exn.M (list Delivery) bool :=
  if negb (en_enabled n) then Exn.ret false
  else
    Exn.try_except
      (Exn.modify
         (fun log : list Delivery =>
            (log ++ [EmailTo (en_email n) to_email subject body is_html])%list)
       ;;; Exn.call smtp ;;; Exn.ret true)
      (fun _ => Exn.ret false).

(** [send_message]: [post] is what the request and [raise_for_status]
    do. *)
Definition send_message (n : TelegramNotifier) (post : Result unit)
    (message parse_mode : string) : Exn.M (list Delivery) bool :=
  if negb (tn_enabled n) then Exn.ret false
  else
    Exn.try_except
      (Exn.modify
         (fun log : list Delivery =>
            (log ++ [TelegramPost (str_of (api_url n) ++ "/sendMessage")
                       (chat_id n) message parse_mode])%list)
       ;;; Exn.call post ;;; Exn.ret true)
      (fun _ => Exn.ret false).

(** The two deliveries that end both [send_price_change_notification]
    and [send_scraping_summary]. *)
Definition send_both (m : NotificationManager) (smtp post : Result unit)
    (subject plain_message telegram_message : string)
  : Exn.M (list Delivery) bool :=
  success_email <-
    (if en_enabled (email_notifier m) && non_empty (recipient_email m)
     then send_email (email_notifier m) smtp (recipient_email m) subject
            plain_message false
     else Exn.ret false) ;;
  success_telegram <-
    (if tn_enabled (telegram_notifier m)
     then send_message (telegram_notifier m) post telegram_message "Markdown"
     else Exn.ret false) ;;
  Exn.ret (success_email || success_telegram).

Definition price_alert_plain (c : ChangeInfo) : string :=
  let direction :=
    if PrimFloat.ltb 0 (ci_change_amount c) then "INCREASED" else "DECREASED" in
  nl ++ "Price Alert for " ++ ci_product c ++ nl
  ++ nl
  ++ direction ++ " by $" ++ format_float ".2f" (PrimFloat.abs (ci_change_amount c))
  ++ " (" ++ format_float ".1f" (PrimFloat.abs (ci_change_percentage c)) ++ "%)" ++ nl
  ++ nl
  ++ "Previous Price: $" ++ format_float ".2f" (ci_previous_price c) ++ nl
  ++ "Current Price: $" ++ format_float ".2f" (ci_current_price c) ++ nl
  ++ "Change: $" ++ format_float "+.2f" (ci_change_amount c)
  ++ " (" ++ format_float "+.1f" (ci_change_percentage c) ++ "%)" ++ nl
  ++ nl
  ++ "Time: " ++ strftime "%Y-%m-%d %H:%M:%S" (ci_timestamp c) ++ nl
  ++ "URL: " ++ ci_url c ++ nl.

Definition price_alert_telegram (c : ChangeInfo) : string :=
  let direction :=
    if PrimFloat.ltb 0 (ci_change_amount c) then "INCREASED" else "DECREASED" in
  nl ++ "*Price Alert*" ++ nl
  ++ nl
  ++ "*" ++ ci_product c ++ "*" ++ nl
  ++ nl
  ++ "*" ++ direction ++ "* by $"
  ++ format_float ".2f" (PrimFloat.abs (ci_change_amount c))
  ++ " (" ++ format_float ".1f" (PrimFloat.abs (ci_change_percentage c)) ++ "%)" ++ nl
  ++ nl
  ++ "Previous: $" ++ format_float ".2f" (ci_previous_price c) ++ nl
  ++ "Current: $" ++ format_float ".2f" (ci_current_price c) ++ nl
  ++ "Change: $" ++ format_float "+.2f" (ci_change_amount c)
  ++ " (" ++ format_float "+.1f" (ci_change_percentage c) ++ "%)" ++ nl
  ++ nl
  ++ "Time: " ++ strftime "%Y-%m-%d %H:%M" (ci_timestamp c) ++ nl.

Definition send_price_change_notification (m : NotificationManager)
    (smtp post : Result unit) (change_info : ChangeInfo)
  : Exn.M (list Delivery) bool :=
  send_both m smtp post ("Price Alert: " ++ ci_product change_info)
    (price_alert_plain change_info) (price_alert_telegram change_info).

Definition arrow (c : ChangeInfo) : string :=
  if PrimFloat.ltb 0 (ci_change_amount c) then "UP" else "DOWN".

(** The loops over [results['price_changes']] and over the first five of
    [results['errors']]. *)
Definition summary_change_lines (changes : list ChangeInfo) : string :=
  String.concat ""
    (map (fun c =>
            arrow c ++ " " ++ ci_product c ++ ": $"
            ++ format_float "+.2f" (ci_change_amount c)
            ++ " (" ++ format_float "+.1f" (ci_change_percentage c) ++ "%)"
            ++ nl)
       changes).

Definition summary_error_lines (errs : list string) : string :=
  String.concat "" (map (fun e => bullet ++ " " ++ e ++ nl) (firstn 5 errs)).

Definition summary_plain (timestamp : string) (r : Results) : string :=
  nl ++ "Scraping Summary (" ++ timestamp ++ ")" ++ nl
  ++ nl
  ++ "Products Scraped: " ++ str_nat (products_scraped r) ++ nl
  ++ "Successful: " ++ str_nat (successful r) ++ nl
  ++ "Failed: " ++ str_nat (failed r) ++ nl
  ++ "Price Changes: " ++ str_nat (List.length (price_changes r)) ++ nl
  ++ match price_changes r with
     | [] => ""
     | changes =>
         nl ++ "Price Changes Detected:" ++ nl ++ summary_change_lines changes
     end
  ++ match errors r with
     | [] => ""
     | errs =>
         nl ++ "Errors (" ++ str_nat (List.length errs) ++ "):" ++ nl
         ++ summary_error_lines errs
     end.

Definition summary_telegram (timestamp : string) (r : Results) : string :=
  nl ++ "*Scraping Summary*" ++ nl
  ++ nl
  ++ "*Results:*" ++ nl
  ++ bullet ++ " Products: " ++ str_nat (products_scraped r) ++ nl
  ++ bullet ++ " Success: " ++ str_nat (successful r) ++ nl
  ++ bullet ++ " Failed: " ++ str_nat (failed r) ++ nl
  ++ bullet ++ " Changes: " ++ str_nat (List.length (price_changes r)) ++ nl
  ++ nl
  ++ "Time: " ++ timestamp ++ nl
  ++ match price_changes r with
     | [] => ""
     | changes =>
         nl ++ "*Price Changes:*" ++ nl
         ++ String.concat ""
              (map (fun c =>
                      arrow c ++ " *" ++ ci_product c ++ "*: $"
                      ++ format_float "+.2f" (ci_change_amount c) ++ nl)
                 changes)
     end.

(** [send_scraping_summary] at the time [now]. *)
Definition send_scraping_summary (m : NotificationManager)
    (smtp post : Result unit) (now : nat) (r : Results)
  : Exn.M (list Delivery) bool :=
  let timestamp := strftime "%Y-%m-%d %H:%M:%S" now in
  send_both m smtp post ("PriceWatch Scraping Summary - " ++ timestamp)
    (summary_plain timestamp r) (summary_telegram timestamp r).

Definition get_status (m : NotificationManager) : Status :=
  mkStatus (en_enabled (email_notifier m)) (tn_enabled (telegram_notifier m))
    (non_empty (en_email (email_notifier m))
     && non_empty (en_password (email_notifier m)))
    (non_empty (bot_token (telegram_notifier m))
     && non_empty (chat_id (telegram_notifier m)))
    (recipient_email m)
    (en_enabled (email_notifier m) || tn_enabled (telegram_notifier m)).

End Methods.

End Notifier.

(** * Notions used by the statements *)

Fixpoint all_digits (s : string) : bool :=
  match s with
  | "" => true
  | String c s' => is_digit c && all_digits s'
  end.

(** A decimal literal: digits, with at most one period among them and at
    least one digit. *)
Definition decimal_literal (s : string) : Prop :=
  (all_digits s = true /\ s <> "")
  \/ exists a b, all_digits a = true /\ all_digits b = true
                 /\ a ++ b <> "" /\ s = a ++ "." ++ b.

(** [s] without its occurrences of [c]. *)
Fixpoint remove_char (c : ascii) (s : string) : string :=
  match s with
  | "" => ""
  | String a s' =>
      if Ascii.eqb a c then remove_char c s' else String a (remove_char c s')
  end.

(** [s] with [d] in the place of every [c]. *)
Fixpoint subst_char (c d : ascii) (s : string) : string :=
  match s with
  | "" => ""
  | String a s' => String (if Ascii.eqb a c then d else a) (subst_char c d s')
  end.

Fixpoint count_char (c : ascii) (s : string) : nat :=
  match s with
  | "" => 0%nat
  | String a s' => ((if Ascii.eqb a c then 1 else 0) + count_char c s')%nat
  end.

(** What follows the first [c] of [s]. *)
Fixpoint after_first (c : ascii) (s : string) : string :=
  match s with
  | "" => ""
  | String a s' => if Ascii.eqb a c then s' else after_first c s'
  end.

(** The separator, comma or period, that comes last in [s]. *)
Fixpoint later_separator (s : string) : option ascii :=
  match s with
  | "" => None
  | String a s' =>
      match later_separator s' with
      | Some sep => Some sep
      | None =>
          if Ascii.eqb a "," || Ascii.eqb a "." then Some a else None
      end
  end.

Definition other_separator (sep : ascii) : ascii :=
  if Ascii.eqb sep "," then "."%char else ","%char.

(** The later separator becomes the decimal point, the other one goes. *)
Definition later_separator_rule (cleaned : string) : string :=
  match later_separator cleaned with
  | Some sep => subst_char sep "." (remove_char (other_separator sep) cleaned)
  | None => cleaned
  end.

(** The comma rule of the code: one comma, and at most two characters
    after it. *)
Definition decimal_comma (cleaned : string) : bool :=
  (count_char "," cleaned =? 1)%nat
  && (String.length (after_first "," cleaned) <=? 2)%nat.

(** The comma rule in the words of the specification: a comma followed
    by exactly two digits and nothing else. *)
Fixpoint comma_then_two_digits (s : string) : bool :=
  match s with
  | "" => false
  | String a s' =>
      Ascii.eqb a "," && (String.length s' =? 2)%nat && all_digits s'
      || comma_then_two_digits s'
  end.

Definition spec_comma_rule (cleaned : string) : string :=
  if comma_then_two_digits cleaned then subst_char "," "." cleaned
  else remove_char "," cleaned.

(** The price a parse gives, up to the equality of rationals. *)
Definition price_is (o : option Q) (q : Q) : Prop :=
  match o with
  | Some p => p == q
  | None => False
  end.

(** The host without a leading [www.], in the words of the
    specification. *)
Definition strip_leading_www (host : string) : string :=
  if prefix "www." host then substring 4 (String.length host - 4) host
  else host.

(** A reading of [urlparse(url).netloc] for a URL [scheme://netloc/path]:
    what lies between the [//] after the scheme and the next [/], [?]
    or [#].  It serves to run the model on concrete URLs. *)
Fixpoint after_scheme (s : string) : string :=
  match s with
  | "" => ""
  | String a s' => if Ascii.eqb a ":" then s' else after_scheme s'
  end.

Fixpoint until_path (s : string) : string :=
  match s with
  | "" => ""
  | String a s' =>
      if Ascii.eqb a "/" || Ascii.eqb a "?" || Ascii.eqb a "#" then ""
      else String a (until_path s')
  end.

Definition simple_netloc (url : string) : Result string :=
  match after_scheme url with
  | String "/" (String "/" rest) => Ok (until_path rest)
  | _ => Ok ""
  end.

(** A page text in which no pattern matches. *)
Definition no_matches (pattern text : string) : list string := [].

(** A page that loads, and on which every selector finds the elements
    [elements]. *)
Definition page_showing (elements : list (Result string)) : PageEnv :=
  mkPageEnv (Ok tt) (Ok tt) (Ok tt) (Ok tt) (Ok tt) (Ok tt)
    (fun _ => Ok elements) (Ok "") (Ok tt) 0.

(** A page whose navigation raises. *)
Definition page_unreachable : PageEnv :=
  mkPageEnv (Ok tt) (Ok tt) (Ok tt) (Ok tt) (Raise "net::ERR_NAME_NOT_RESOLVED")
    (Ok tt) (fun _ => Ok []) (Ok "") (Ok tt) 0.

Definition no_stats : Stats := mkStats 0 0 0 0 None.

(** What [scrape_multiple] owes the [i]-th URL: the dict of its task, or
    the failed dict made of the exception. *)
Definition outcome_of (run_task : nat -> string -> Result ScrapeResult)
    (now i : nat) (url : string) : ScrapeResult :=
  match run_task i url with
  | Ok d => d
  | Raise e => mkScrapeResult url None false (Some e) now
  end.

Fixpoint outcomes_from (run_task : nat -> string -> Result ScrapeResult)
    (now i : nat) (urls : list string) : list ScrapeResult :=
  match urls with
  | [] => []
  | url :: rest =>
      outcome_of run_task now i url :: outcomes_from run_task now (S i) rest
  end.

(** The change event of a product whose price went from [previous] to
    [current]. *)
Definition change_event (env : ItemEnv) (product : Product)
    (previous current : float) : ChangeInfo :=
  mkChangeInfo (product_label product) (product_url product)
    previous current (current - previous)%float
    (((current - previous) / previous) * 100)%float (item_now env).

(** A product whose last stored price is [previous] and whose page shows
    [text]; the database and the notification manager work. *)
Definition item_env (previous : option float) (text : string) : ItemEnv :=
  mkItemEnv (Ok previous) (page_showing [Ok text]) (Ok tt) (Ok true) 0.

Definition one_product : Product :=
  mkProduct "https://example.com/item" "Item" (Some ".price").

(** The characters [re.sub] keeps: digits, commas and periods. *)
Definition is_price_char (c : ascii) : bool :=
  is_digit c || Ascii.eqb c "." || Ascii.eqb c ",".

Fixpoint only_price_chars (s : string) : bool :=
  match s with
  | "" => true
  | String c s' => is_price_char c && only_price_chars s'
  end.

Fixpoint only_digits_and_periods (s : string) : bool :=
  match s with
  | "" => true
  | String c s' =>
      (is_digit c || Ascii.eqb c ".") && only_digits_and_periods s'
  end.

(** What one selector gives to the cascade: the first positive price among
    its elements, or nothing when the query or an [inner_text] raises or no
    element holds one. *)
Definition selector_price (query : string -> Result (list (Result string)))
    (selector : string) : option Q :=
  match query selector with
  | Ok elements =>
      match first_price_in elements with
      | Ok price => if truthy price then price else None
      | Raise _ => None
      end
  | Raise _ => None
  end.

(** The page loads: the driver starts, the browser, its context and its
    page open, and the navigation returns. *)
Definition page_loads (page : PageEnv) : Prop :=
  pw_start page = Ok tt /\ pw_launch page = Ok tt
  /\ pw_new_context page = Ok tt /\ pw_new_page page = Ok tt
  /\ pw_goto page = Ok tt.

(** The page [page], but with [r] for what the wait for network idle
    does. *)
Definition with_networkidle (r : Result unit) (page : PageEnv) : PageEnv :=
  mkPageEnv (pw_start page) (pw_launch page) (pw_new_context page)
    (pw_new_page page) (pw_goto page) r (pw_query_selector_all page)
    (pw_page_text page) (pw_browser_close page) (pw_time page).

(** The dict of a scrape that found [p], and the dict of one that found
    nothing. *)
Definition found_dict (url : string) (p : Q) (time : nat) : ScrapeResult :=
  mkScrapeResult url (Some p) true None time.

Definition not_found_dict (url : string) (time : nat) : ScrapeResult :=
  mkScrapeResult url None false (Some "No price found with any selector")
    time.

(** The task [scrape_with_semaphore(url)] of [scrape_multiple], the page
    of the [i]-th URL being [pages i]. *)
Definition scrape_with_semaphore
    (urlparse_netloc : string -> Result string)
    (re_findall : string -> string -> list string)
    (pages : nat -> PageEnv) (css_selector : option string)
    (i : nat) (url : string) : Result ScrapeResult :=
  scrape_price urlparse_netloc re_findall (pages i) url css_selector.

(** A [urlparse] that raises, as on an unbalanced bracket in the host. *)
Definition failing_netloc (url : string) : Result string :=
  Raise "Invalid IPv6 URL".

(** A page that loads and shows [elements], but whose browser raises when
    it is closed. *)
Definition page_close_fails (elements : list (Result string)) : PageEnv :=
  mkPageEnv (Ok tt) (Ok tt) (Ok tt) (Ok tt) (Ok tt) (Ok tt)
    (fun _ => Ok elements) (Ok "") (Raise "Target closed") 0.

(** The price a batch run stores for a product: the one its scrape found,
    when the lookup of the previous price returned, the scrape succeeded
    and the insert returned. *)
Definition stored_price (urlparse_netloc : string -> Result string)
    (re_findall : string -> string -> list string)
    (env : ItemEnv) (product : Product) : option Q :=
  match db_get_latest_price env with
  | Raise _ => None
  | Ok _ =>
      match scrape_sync urlparse_netloc re_findall (item_page env)
              (product_url product) (product_css_selector product) with
      | Raise _ => None
      | Ok d =>
          if sr_success d then
            match sr_price d, db_add_price env with
            | Some p, Ok _ => Some p
            | _, _ => None
            end
          else None
      end
  end.

Definition new_rows (urlparse_netloc : string -> Result string)
    (re_findall : string -> string -> list string)
    (env : ItemEnv) (product : Product) : list (string * Q) :=
  match stored_price urlparse_netloc re_findall env product with
  | Some p => [(product_url product, p)]
  | None => []
  end.

(** The change event a batch run records for a product: the one from its
    previous price, when there is one other than 0, to the price it stores,
    when the percentage reaches the threshold. *)
Definition new_changes (urlparse_netloc : string -> Result string)
    (re_findall : string -> string -> list string) (cfg : Config)
    (env : ItemEnv) (product : Product) : list ChangeInfo :=
  match stored_price urlparse_netloc re_findall env product,
        db_get_latest_price env with
  | Some current, Ok (Some previous) =>
      if PrimFloat.eqb previous 0 then []
      else if PrimFloat.leb (notification_threshold cfg)
                (PrimFloat.abs
                   (((to_float current - previous) / previous) * 100)%float)
           then [change_event env product previous (to_float current)]
           else []
  | _, _ => []
  end.

(** Whether a batch run counts a product as failed. *)
Definition counted_failed (urlparse_netloc : string -> Result string)
    (re_findall : string -> string -> list string)
    (env : ItemEnv) (product : Product) : bool :=
  match stored_price urlparse_netloc re_findall env product with
  | None => true
  | Some _ =>
      match db_get_latest_price env with
      | Ok (Some previous) => PrimFloat.eqb previous 0
      | _ => false
      end
  end.

(** The ['success_rate'] entry of the dict [get_stats] returns, lines 285
    to 288. *)
Definition get_stats_success_rate (stats : Stats) : Q :=
  if (0 <? total_scrapes stats)%nat
  then (inject_Z (Z.of_nat (successful_scrapes stats))
        / inject_Z (Z.of_nat (total_scrapes stats))) * 100
  else 0.

(** Whether an outside call returned. *)
Definition succeeded (r : Result unit) : bool :=
  match r with
  | Ok _ => true
  | Raise _ => false
  end.

(** The channel of a delivery. *)
Inductive Channel : Type := ViaEmail | ViaTelegram.

Definition channel_of (d : Delivery) : Channel :=
  match d with
  | EmailTo _ _ _ _ _ => ViaEmail
  | TelegramPost _ _ _ _ => ViaTelegram
  end.

(** The channels a manager can use: mail needs an enabled notifier and a
    recipient, Telegram an enabled notifier. *)
Definition email_usable (m : NotificationManager) : bool :=
  en_enabled (email_notifier m) && non_empty (recipient_email m).

Definition telegram_usable (m : NotificationManager) : bool :=
  tn_enabled (telegram_notifier m).

(** An environment that holds the mail credentials and nothing else. *)
Definition env_mail_only (name : string) : option string :=
  if String.eqb name "EMAIL_ADDRESS" then Some "shop@example.com"
  else if String.eqb name "EMAIL_PASSWORD" then Some "secret"
  else None.

(** The two entries of the test of [database.py], newest first. *)
Definition sample_history (url : string) : QueryOutcome :=
  Rows [mkPriceEntry (Some 2%nat) url (to_float 89.99) 20 (Some 1%nat);
        mkPriceEntry (Some 1%nat) url (to_float 99.99) 10 (Some 1%nat)].

(** The exception that stops the page from loading: that of the first of
    the five calls, in their order, that raises. *)
Definition first_error (page : PageEnv) : option string :=
  match pw_start page with
  | Raise e => Some e
  | Ok _ =>
      match pw_launch page with
      | Raise e => Some e
      | Ok _ =>
          match pw_new_context page with
          | Raise e => Some e
          | Ok _ =>
              match pw_new_page page with
              | Raise e => Some e
              | Ok _ =>
                  match pw_goto page with
                  | Raise e => Some e
                  | Ok _ => None
                  end
              end
          end
      end
  end.

(** Whether the text scan accepts a match. *)
Definition plausible (m : string) : bool :=
  match _clean_price_text m with
  | Some p => truthy (Some p) && Qle_bool 0.01 p && Qle_bool p 999999
  | None => false
  end.

(** * Properties *)

(** ** Strings *)

Lemma prefix_single (c a : ascii) (s : string) :
  prefix (String c "") (String a s) = Ascii.eqb a c.
Proof.
  simpl. destruct (ascii_dec c a) as [->|n].
  - rewrite Ascii.eqb_refl. now destruct s.
  - symmetry. apply Ascii.eqb_neq. congruence.
Qed.

Lemma replace_remove (c : ascii) (s : string) :
  replace (String c "") "" s = remove_char c s.
Proof.
  unfold replace. induction s as [|a s IH]; [reflexivity|].
  cbn [replace_from remove_char]. rewrite prefix_single.
  destruct (Ascii.eqb a c); simpl; now rewrite IH.
Qed.

Lemma replace_subst (c d : ascii) (s : string) :
  replace (String c "") (String d "") s = subst_char c d s.
Proof.
  unfold replace. induction s as [|a s IH]; [reflexivity|].
  cbn [replace_from subst_char]. rewrite prefix_single.
  destruct (Ascii.eqb a c); simpl; now rewrite IH.
Qed.

Lemma app_empty_r (s : string) : s ++ "" = s.
Proof. induction s as [|a s IH]; simpl; [reflexivity | now rewrite IH]. Qed.

Lemma app_eq_empty (a b : string) : a ++ b = "" -> a = "" /\ b = "".
Proof. destruct a; simpl; [auto | discriminate]. Qed.

(** What stops [span_digits]: the end of the text or a character that is
    no digit. *)
Definition stops_digits (r : string) : Prop :=
  match r with
  | "" => True
  | String c _ => is_digit c = false
  end.

Lemma span_digits_spec (s a r : string) :
  span_digits s = (a, r) ->
  s = a ++ r /\ all_digits a = true /\ stops_digits r.
Proof.
  revert a r. induction s as [|c s IH]; simpl; intros a r H.
  - inversion H; subst. simpl. auto.
  - destruct (is_digit c) eqn:D.
    + destruct (span_digits s) as [d r0] eqn:E. inversion H; subst.
      destruct (IH d r eq_refl) as (-> & Hd & Hr).
      simpl. rewrite D, Hd. auto.
    + inversion H; subst. simpl. auto.
Qed.

Lemma span_digits_app (a r : string) :
  all_digits a = true -> stops_digits r -> span_digits (a ++ r) = (a, r).
Proof.
  intros Ha Hr. induction a as [|c a IH]; simpl in *.
  - destruct r as [|c r]; simpl in *; [reflexivity | now rewrite Hr].
  - apply andb_true_iff in Ha as [Hc Ha]. now rewrite Hc, (IH Ha).
Qed.

Lemma span_digits_all (s : string) :
  all_digits s = true -> span_digits s = (s, "").
Proof.
  intros H. pose proof (span_digits_app s "" H I) as E.
  now rewrite app_empty_r in E.
Qed.

(** [float] accepts exactly the decimal literals. *)
Lemma py_float_some_iff (s : string) :
  (exists q, py_float s = Some q) <-> decimal_literal s.
Proof.
  unfold py_float, decimal_literal. split.
  - intros [q H].
    destruct (span_digits s) as [a r] eqn:E.
    apply span_digits_spec in E as (-> & Ha & Hr).
    destruct r as [|c r'].
    + left. rewrite app_empty_r.
      destruct (String.eqb a "") eqn:Ea; [discriminate|].
      apply String.eqb_neq in Ea. auto.
    + destruct (Ascii.eqb c ".") eqn:Ec; [|discriminate].
      apply Ascii.eqb_eq in Ec as ->.
      destruct (span_digits r') as [b r''] eqn:E'.
      apply span_digits_spec in E' as (-> & Hb & _).
      destruct r''; [|discriminate]. rewrite app_empty_r.
      right. exists a, b. repeat split; auto.
      intros Hab. apply app_eq_empty in Hab as [-> ->]. discriminate.
  - intros [[Hs Hne] | (a & b & Ha & Hb & Hne & ->)].
    + rewrite (span_digits_all s Hs).
      destruct (String.eqb s "") eqn:Es; [|eauto].
      apply String.eqb_eq in Es. contradiction.
    + rewrite (span_digits_app a ("." ++ b) Ha eq_refl).
      simpl. rewrite (span_digits_all b Hb).
      destruct (String.eqb a "" && String.eqb b "") eqn:Eab; [|eauto].
      apply andb_true_iff in Eab as [Ea Eb].
      apply String.eqb_eq in Ea, Eb. subst. now contradiction Hne.
Qed.

Lemma py_float_none_iff (s : string) :
  py_float s = None <-> ~ decimal_literal s.
Proof.
  rewrite <- py_float_some_iff. split.
  - intros H [q Hq]. congruence.
  - intros H. destruct (py_float s) as [q|]; [|reflexivity].
    exfalso. apply H. eauto.
Qed.

Lemma rindex_none_iff (c : ascii) (s : string) :
  rindex c s = None <-> contains_char c s = false.
Proof.
  induction s as [|a s IH]; simpl; [tauto|].
  destruct (rindex c s) as [i|].
  - destruct (contains_char c s).
    + rewrite orb_true_r. split; discriminate.
    + destruct IH as [_ IH]. discriminate (IH eq_refl).
  - destruct IH as [IH _]. rewrite (IH eq_refl), orb_false_r.
    destruct (Ascii.eqb a c); split; congruence.
Qed.

(** The later separator, read off the two [rindex]. *)
Lemma later_separator_rindex (s : string) :
  later_separator s =
  match rindex "," s, rindex "." s with
  | Some i, Some j => Some (if (i <? j)%nat then "."%char else ","%char)
  | Some _, None => Some ","%char
  | None, Some _ => Some "."%char
  | None, None => None
  end.
Proof.
  induction s as [|a s IH]; [reflexivity|].
  cbn [later_separator rindex]. rewrite IH.
  destruct (rindex "," s) as [i|], (rindex "." s) as [j|].
  - reflexivity.
  - destruct (Ascii.eqb a ".") eqn:E; reflexivity.
  - destruct (Ascii.eqb a ",") eqn:E; reflexivity.
  - destruct (Ascii.eqb a ",") eqn:E1.
    + apply Ascii.eqb_eq in E1 as ->. reflexivity.
    + destruct (Ascii.eqb a ".") eqn:E2; [|reflexivity].
      apply Ascii.eqb_eq in E2 as ->. reflexivity.
Qed.

Lemma subst_char_same (c : ascii) (s : string) : subst_char c c s = s.
Proof.
  induction s as [|a s IH]; simpl; [reflexivity|]. rewrite IH.
  destruct (Ascii.eqb a c) eqn:E; [|reflexivity].
  now apply Ascii.eqb_eq in E as ->.
Qed.

(** With both separators, the text handed to [float] follows the later
    separator. *)
Lemma normalize_both (cleaned : string) :
  contains_char "," cleaned = true -> contains_char "." cleaned = true ->
  normalize_separators cleaned = later_separator_rule cleaned.
Proof.
  intros Hc Hp. unfold normalize_separators, later_separator_rule.
  rewrite Hc, Hp, later_separator_rindex. cbn [andb].
  destruct (rindex "," cleaned) as [i|] eqn:Ei.
  2:{ apply rindex_none_iff in Ei. congruence. }
  destruct (rindex "." cleaned) as [j|] eqn:Ej.
  2:{ apply rindex_none_iff in Ej. congruence. }
  destruct (i <? j)%nat.
  - change (other_separator ".") with ","%char.
    now rewrite subst_char_same, replace_remove.
  - change (other_separator ",") with "."%char.
    now rewrite replace_remove, replace_subst.
Qed.

Lemma split_length (c : ascii) (s : string) :
  List.length (split c s) = S (count_char c s).
Proof.
  induction s as [|a s IH]; [reflexivity|]. simpl.
  destruct (Ascii.eqb a c); simpl; [now rewrite IH|].
  destruct (split c s); simpl in *; lia.
Qed.

Lemma split_no_sep (c : ascii) (s : string) :
  count_char c s = 0%nat -> split c s = [s].
Proof.
  induction s as [|a s IH]; [reflexivity|]. simpl.
  destruct (Ascii.eqb a c); [discriminate|].
  intros H. now rewrite (IH H).
Qed.

Lemma split_second (c : ascii) (s : string) :
  count_char c s = 1%nat -> nth 1 (split c s) "" = after_first c s.
Proof.
  induction s as [|a s IH]; [discriminate|]. simpl.
  destruct (Ascii.eqb a c); simpl; intros H.
  - injection H as H. now rewrite (split_no_sep c s H).
  - pose proof (split_length c s) as L.
    destruct (split c s) as [|h t]; [discriminate|].
    simpl in *. now apply IH.
Qed.

(** The test of line 99 is the comma rule of the code. *)
Lemma split_test (s : string) :
  (List.length (split "," s) =? 2)%nat
  && (String.length (nth 1 (split "," s) "") <=? 2)%nat
  = decimal_comma s.
Proof.
  unfold decimal_comma. rewrite split_length.
  change (S (count_char "," s) =? 2)%nat with (count_char "," s =? 1)%nat.
  destruct (count_char "," s =? 1)%nat eqn:E; [|reflexivity].
  apply Nat.eqb_eq in E. now rewrite split_second.
Qed.

Lemma normalize_comma_only (cleaned : string) :
  contains_char "," cleaned = true -> contains_char "." cleaned = false ->
  normalize_separators cleaned =
  if decimal_comma cleaned then subst_char "," "." cleaned
  else remove_char "," cleaned.
Proof.
  intros Hc Hp. unfold normalize_separators.
  rewrite Hc, Hp. cbn [andb]. rewrite split_test.
  now rewrite replace_subst, replace_remove.
Qed.

Lemma clean_price_text_nonempty (text : string) :
  text <> "" ->
  _clean_price_text text = py_float (normalize_separators (cleaned_of text)).
Proof.
  intros H. unfold _clean_price_text.
  destruct (String.eqb text "") eqn:E; [|reflexivity].
  apply String.eqb_eq in E. contradiction.
Qed.

(** ** The numeric price parser *)

(** C1, as the code has it: [_clean_price_text] returns [None] exactly when
    the text is empty or what is left after cleaning is no decimal literal;
    so "abc" gives [None].  It does not reject what is not positive: the
    sign goes with the other characters, "-5.00" gives 5, and "0" gives
    0. *)
Theorem clean_price_text_null_iff :
  (forall text,
      _clean_price_text text = None <->
      text = "" \/ ~ decimal_literal (normalize_separators (cleaned_of text)))
  /\ _clean_price_text "abc" = None
  /\ price_is (_clean_price_text "-5.00") 5
  /\ price_is (_clean_price_text "0") 0.
Proof.
  split; [|repeat split; reflexivity].
  intros text. unfold _clean_price_text.
  destruct (String.eqb text "") eqn:E.
  - apply String.eqb_eq in E. tauto.
  - apply String.eqb_neq in E. rewrite py_float_none_iff. tauto.
Qed.

(** C1, as stated, fails on "-5.00": the parse is 5, not [None]. *)
Lemma clean_price_text_minus_five :
  price_is (_clean_price_text "-5.00") 5
  /\ _clean_price_text "-5.00" <> None.
Proof. split; [reflexivity | discriminate]. Qed.

(** C2, as the code has it: when the cleaned text has a comma and no
    period, the comma is the decimal point exactly when there is one comma
    and at most two characters follow it; otherwise every comma is
    removed. *)
Theorem comma_only_rule (text : string) :
  text <> "" ->
  contains_char "," (cleaned_of text) = true ->
  contains_char "." (cleaned_of text) = false ->
  _clean_price_text text =
  py_float (if decimal_comma (cleaned_of text)
            then subst_char "," "." (cleaned_of text)
            else remove_char "," (cleaned_of text)).
Proof.
  intros Hne Hc Hp.
  now rewrite (clean_price_text_nonempty text Hne), normalize_comma_only.
Qed.

Lemma comma_only_rule_witness :
  _clean_price_text "1,234" = py_float "1234"
  /\ _clean_price_text "12,5" = py_float "12.5".
Proof.
  split.
  - exact (comma_only_rule "1,234" ltac:(discriminate) eq_refl eq_refl).
  - exact (comma_only_rule "12,5" ltac:(discriminate) eq_refl eq_refl).
Defined.

(** C2, as stated, fails on "12,5": the comma is followed by one digit, so
    the stated rule removes it and reads 125; the code reads 12.5. *)
Lemma comma_one_digit :
  contains_char "," (cleaned_of "12,5") = true
  /\ contains_char "." (cleaned_of "12,5") = false
  /\ comma_then_two_digits (cleaned_of "12,5") = false
  /\ price_is (py_float (spec_comma_rule (cleaned_of "12,5"))) 125
  /\ price_is (_clean_price_text "12,5") 12.5
  /\ ~ 12.5 == 125.
Proof. repeat split; try reflexivity. discriminate. Qed.

(** C8: when the cleaned text has both a comma and a period, the one that
    comes later is the decimal point and the other one is removed; so
    "1,234.56" and "1.234,56" both read 1234.56. *)
Theorem both_separators_rule :
  (forall text,
      contains_char "," (cleaned_of text) = true ->
      contains_char "." (cleaned_of text) = true ->
      _clean_price_text text = py_float (later_separator_rule (cleaned_of text)))
  /\ price_is (_clean_price_text "1,234.56") 1234.56
  /\ price_is (_clean_price_text "1.234,56") 1234.56.
Proof.
  split; [|split; reflexivity].
  intros text Hc Hp. rewrite clean_price_text_nonempty.
  - now rewrite normalize_both.
  - intros ->. discriminate.
Qed.

(** ** Selector resolution *)

Section SelectorProperties.

Variable urlparse_netloc : string -> Result string.

Lemma site_selectors_first (table before after : list (string * list string))
    (site : string) (selectors : list string) (domain : string) :
  table = (before ++ (site, selectors) :: after)%list ->
  contains site domain = true ->
  (forall entry, In entry before -> contains (fst entry) domain = false) ->
  site_selectors table domain = Some selectors.
Proof.
  intros -> Hs. induction before as [|[s l] before IH]; simpl; intros Hb.
  - now rewrite Hs.
  - pose proof (Hb (s, l) (or_introl eq_refl)) as E. simpl in E.
    rewrite E. apply IH. auto.
Qed.

Lemma site_selectors_none (table : list (string * list string))
    (domain : string) :
  (forall entry, In entry table -> contains (fst entry) domain = false) ->
  site_selectors table domain = None.
Proof.
  induction table as [|[s l] table IH]; simpl; intros H; [reflexivity|].
  pose proof (H (s, l) (or_introl eq_refl)) as E. simpl in E.
  rewrite E. apply IH. auto.
Qed.

Lemma get_price_selectors_nonempty (url : string) (custom : option string) :
  _get_price_selectors urlparse_netloc url custom <> [].
Proof.
  unfold _get_price_selectors. destruct custom as [[|c s]|];
    try discriminate;
    unfold price_selectors; cbn [site_selectors];
    repeat match goal with
           | |- context [if ?b then _ else _] => destruct b
           end; discriminate.
Qed.

(** The cases of [_get_price_selectors], in terms of what [_get_domain]
    returns: an override that is not empty gives the list of that override
    alone; without one, the first site of the table, in its order, that
    occurs in that string gives its selectors, in their order; when no site
    occurs in it, the generic selectors come back; and the list is never
    empty. *)
Lemma get_price_selectors_cases (url : string) (custom : option string) :
  let domain := _get_domain urlparse_netloc url in
  let out := _get_price_selectors urlparse_netloc url custom in
  (forall s, custom = Some s -> s <> "" -> out = [s])
  /\ (custom = None \/ custom = Some "" ->
      (forall before site selectors after,
          price_selectors = (before ++ (site, selectors) :: after)%list ->
          contains site domain = true ->
          (forall entry, In entry before ->
                         contains (fst entry) domain = false) ->
          out = selectors)
      /\ ((forall entry, In entry price_selectors ->
                         contains (fst entry) domain = false) ->
          out = generic_selectors))
  /\ out <> [].
Proof.
  intros domain out. split; [|split].
  - intros s -> Hs. destruct s; [contradiction | reflexivity].
  - intros Hc.
    assert (E : out = match site_selectors price_selectors domain with
                      | Some selectors => selectors
                      | None => generic_selectors
                      end)
      by (destruct Hc as [-> | ->]; reflexivity).
    split.
    + intros before site selectors after Ht Hs Hb.
      now rewrite E, (site_selectors_first _ _ _ _ _ _ Ht Hs Hb).
    + intros Hn. now rewrite E, (site_selectors_none _ _ Hn).
  - apply get_price_selectors_nonempty.
Qed.

(** C3, on a host that holds [www.] past its start: the code removes it
    there too, where the claim leaves the host as it is. *)
Theorem get_domain_removes_inner_www (url : string) :
  urlparse_netloc url = Ok "shopwww.example.com" ->
  _get_domain urlparse_netloc url = "shopexample.com"
  /\ strip_leading_www (lower "shopwww.example.com") = "shopwww.example.com".
Proof.
  intros H. unfold _get_domain. rewrite H. split; reflexivity.
Qed.

(** C7, on a host in which no known site occurs, but in which one appears
    once [www.] is removed from its middle: the domain of the URL, its host
    in lower case without a leading [www.], matches no site of the table,
    and the claim gives the generic selectors; the code looks the host up as
    [amazon.com] and returns the selectors of that site. *)
Theorem inner_www_host_gets_site_selectors (url : string) :
  urlparse_netloc url = Ok "amawww.zon.com" ->
  let domain := strip_leading_www (lower "amawww.zon.com") in
  let out := _get_price_selectors urlparse_netloc url None in
  domain = "amawww.zon.com"
  /\ (forall entry, In entry price_selectors ->
                    contains (fst entry) domain = false)
  /\ out = [".a-price-whole"; ".a-offscreen"; "#priceblock_dealprice";
            "#priceblock_ourprice"; ".a-price .a-offscreen"]
  /\ out <> generic_selectors.
Proof.
  intros H domain out. subst out. unfold _get_price_selectors, _get_domain.
  rewrite H. split; [reflexivity|]. split; [|split].
  - intros entry Hin. unfold price_selectors in Hin. simpl in Hin.
    repeat (destruct Hin as [<-|Hin]; [reflexivity|]). destruct Hin.
  - reflexivity.
  - discriminate.
Qed.

End SelectorProperties.

Lemma inner_www_host_gets_site_selectors_witness :
  let out :=
    _get_price_selectors simple_netloc "https://amawww.zon.com/item" None in
  out = [".a-price-whole"; ".a-offscreen"; "#priceblock_dealprice";
         "#priceblock_ourprice"; ".a-price .a-offscreen"]
  /\ out <> generic_selectors.
Proof.
  intros out.
  destruct (inner_www_host_gets_site_selectors simple_netloc
              "https://amawww.zon.com/item" eq_refl) as (_ & _ & E & N).
  split; [exact E | exact N].
Defined.

(** On the URLs of three shops: a known site, with and without [www.], gets
    its own selectors, and a shop the table does not know gets the generic
    ones. *)
Remark selectors_of_sample_urls :
  _get_price_selectors simple_netloc "https://www.amazon.com/dp/B01" None
  = [".a-price-whole"; ".a-offscreen"; "#priceblock_dealprice";
     "#priceblock_ourprice"; ".a-price .a-offscreen"]
  /\ _get_price_selectors simple_netloc "https://Etsy.com/listing/1" None
     = [".currency-value"; ".shop2-review-review-header-currency-value"]
  /\ _get_price_selectors simple_netloc "https://example.com/item" None
     = generic_selectors
  /\ _get_price_selectors simple_netloc "https://www.amazon.com/dp/B01"
       (Some "#price")
     = ["#price"].
Proof. repeat split. Qed.

Lemma get_domain_removes_inner_www_witness :
  _get_domain simple_netloc "https://shopwww.example.com/item"
  = "shopexample.com"
  /\ strip_leading_www (lower "shopwww.example.com") = "shopwww.example.com".
Proof.
  exact (get_domain_removes_inner_www simple_netloc
           "https://shopwww.example.com/item" eq_refl).
Defined.

(** ** The page price extractor *)

Section ExtractorProperties.

Variable urlparse_netloc : string -> Result string.
Variable re_findall : string -> string -> list string.

Ltac run_scrape :=
  unfold scrape_price, scrape_price_from, scrape_block, with_playwright,
    _wait_for_page_load, Exn.try_except, Exn.bind, Exn.call, Exn.modify,
    Exn.ret;
  cbn [fst snd resources result on_resources on_result].

Ltac split_outcomes page :=
  destruct (pw_start page) as [[]|], (pw_launch page) as [[]|],
    (pw_new_context page) as [[]|], (pw_new_page page) as [[]|],
    (pw_goto page) as [[]|], (pw_networkidle page) as [[]|],
    (pw_browser_close page) as [[]|].

(** C4: whatever the browser does, [scrape_price] returns a dict, and when
    it returns neither the driver, nor the browser, nor its context, nor
    its page is left. *)
Theorem scrape_price_releases_browser (page : PageEnv) (url : string)
    (css_selector : option string) :
  resources
    (snd (scrape_price_from urlparse_netloc re_findall no_resources page url
            css_selector))
  = no_resources
  /\ exists d,
       scrape_price urlparse_netloc re_findall page url css_selector = Ok d.
Proof.
  run_scrape. split_outcomes page; cbn;
    repeat match goal with
           | |- context [if ?b then _ else _] => destruct b; cbn
           end; eauto.
Qed.

(** The [browser.close()] of line 184 is not reached when the navigation
    raises: the block alone leaves the browser, its context and its page;
    it is leaving the [async with] that ends them. *)
Remark scrape_block_skips_close (page : PageEnv) (url : string)
    (css_selector : option string) (st : ScrapeState) (msg : string) :
  pw_launch page = Ok tt -> pw_new_context page = Ok tt ->
  pw_new_page page = Ok tt -> pw_goto page = Raise msg ->
  scrape_block urlparse_netloc re_findall page url css_selector st
  = (Raise msg,
     on_resources
       (fun r => opened_page (opened_context (opened_browser r))) st).
Proof.
  intros H1 H2 H3 H4. run_scrape. now rewrite H1, H2, H3, H4.
Qed.

(** An exception of the navigation is caught by [scrape_price] itself,
    which returns a failed dict with the URL, no price and the text of the
    exception. *)
Remark scrape_price_navigation_error (page : PageEnv) (url : string)
    (css_selector : option string) (e : string) :
  pw_start page = Ok tt -> pw_launch page = Ok tt ->
  pw_new_context page = Ok tt -> pw_new_page page = Ok tt ->
  pw_goto page = Raise e ->
  scrape_price urlparse_netloc re_findall page url css_selector
  = Ok (mkScrapeResult url None false
          (Some ("Scraping error for " ++ url ++ ": " ++ e)) (pw_time page)).
Proof.
  intros H0 H1 H2 H3 H4. run_scrape. now rewrite H0, H1, H2, H3, H4.
Qed.

Lemma Qlt_bool_lt (x y : Q) : Qlt_bool x y = true -> x < y.
Proof.
  unfold Qlt_bool. intros H. apply negb_true_iff in H.
  apply Qnot_le_lt. intros L. apply Qle_bool_iff in L. congruence.
Qed.

Lemma first_price_in_positive (elements : list (Result string)) (p : Q) :
  first_price_in elements = Ok (Some p) -> 0 < p.
Proof.
  induction elements as [|[text|msg] rest IH]; simpl; try discriminate.
  destruct (_clean_price_text text) as [q|]; [|exact IH].
  destruct (truthy (Some q) && Qlt_bool 0 q) eqn:E; [|exact IH].
  intros H. injection H as <-.
  apply andb_true_iff in E as [_ E]. now apply Qlt_bool_lt.
Qed.

Lemma try_selectors_positive
    (query : string -> Result (list (Result string)))
    (selectors : list string) (p : Q) :
  try_selectors query selectors = Some p -> 0 < p.
Proof.
  induction selectors as [|selector rest IH]; simpl; [discriminate|].
  destruct (query selector) as [elements|]; [|exact IH].
  destruct (first_price_in elements) as [price|] eqn:E; [|exact IH].
  destruct (truthy price); [|exact IH].
  intros ->. now apply first_price_in_positive in E.
Qed.

Lemma first_plausible_range (matches : list string) (p : Q) :
  first_plausible matches = Some p -> 0.01 <= p /\ p <= 999999.
Proof.
  induction matches as [|m rest IH]; simpl; [discriminate|].
  destruct (_clean_price_text m) as [q|]; [|exact IH].
  destruct (truthy (Some q) && Qle_bool 0.01 q && Qle_bool q 999999) eqn:E;
    [|exact IH].
  intros H. injection H as <-.
  apply andb_true_iff in E as [E E2]. apply andb_true_iff in E as [_ E1].
  split; now apply Qle_bool_iff.
Qed.

Lemma fallback_range (page : PageEnv) (p : Q) :
  _fallback_price_extraction re_findall page = Some p ->
  0.01 <= p /\ p <= 999999.
Proof.
  unfold _fallback_price_extraction.
  destruct (pw_page_text page) as [text|]; [|discriminate].
  induction price_patterns as [|pattern rest IH]; simpl; [discriminate|].
  destruct (first_plausible (re_findall pattern text)) as [q|] eqn:E;
    [|exact IH].
  intros H. injection H as <-. now apply first_plausible_range in E.
Qed.

(** A dict with [success] set carries a positive price: the one a selector
    gave, which is above 0, or the one the text scan gave, which lies
    between 0.01 and 999999. *)
Lemma scrape_success_positive (page : PageEnv) (url : string)
    (css_selector : option string) (d : ScrapeResult) :
  scrape_price urlparse_netloc re_findall page url css_selector = Ok d ->
  sr_success d = true ->
  exists p, sr_price d = Some p /\ 0 < p.
Proof.
  run_scrape.
  set (found := try_selectors _ _).
  assert (P : forall p,
             (if negb (truthy found)
              then _fallback_price_extraction re_findall page
              else found) = Some p -> 0 < p).
  { intros p. destruct (negb (truthy found)); intros H.
    - apply fallback_range in H as [H _].
      apply Qlt_le_trans with (y := 0.01); [reflexivity | exact H].
    - now apply try_selectors_positive in H. }
  revert P.
  generalize (if negb (truthy found)
              then _fallback_price_extraction re_findall page
              else found).
  intros price P.
  split_outcomes page; cbn;
    try (destruct (truthy price) eqn:T; cbn);
    intros H; injection H as <-; cbn; try discriminate; intros _;
    (destruct price as [p|]; [eauto | discriminate T]).
Qed.

End ExtractorProperties.

(** ** The batch scraper *)

Section BatchProperties.

Variable run_task : nat -> string -> Result ScrapeResult.
Variable now : nat.

Lemma process_results_gather (urls rest : list string) :
  forall (i : nat) (acc : list ScrapeResult),
    (forall k u, nth_error rest k = Some u ->
                 nth_error urls (i + k) = Some u) ->
    process_results now urls i (gather_from run_task i rest) acc
    = Ok (acc ++ outcomes_from run_task now i rest)%list.
Proof.
  induction rest as [|u rest IH]; intros i acc H; simpl.
  - now rewrite app_nil_r.
  - assert (Hrest : forall k u', nth_error rest k = Some u' ->
                                 nth_error urls (S i + k) = Some u').
    { intros k u' Hk. replace (S i + k)%nat with (i + S k)%nat by lia.
      now apply H. }
    unfold outcome_of. destruct (run_task i u) as [d|e].
    + rewrite (IH (S i) _ Hrest), <- app_assoc. reflexivity.
    + pose proof (H 0%nat u eq_refl) as H0. rewrite Nat.add_0_r in H0.
      rewrite H0, (IH (S i) _ Hrest), <- app_assoc. reflexivity.
Qed.

Lemma outcomes_from_length (urls : list string) (i : nat) :
  List.length (outcomes_from run_task now i urls) = List.length urls.
Proof.
  revert i. induction urls as [|u urls IH]; intros i; simpl; auto.
Qed.

Lemma outcomes_from_nth (urls : list string) :
  forall i k u,
    nth_error urls k = Some u ->
    nth_error (outcomes_from run_task now i urls) k
    = Some (outcome_of run_task now (i + k) u).
Proof.
  induction urls as [|u0 urls IH]; intros i [|k] u H; simpl in *;
    try discriminate.
  - injection H as ->. now rewrite Nat.add_0_r.
  - rewrite Nat.add_succ_r. now apply (IH (S i)).
Qed.

(** C5: [scrape_multiple] returns one dict for each URL, the dict at index
    [i] being that of the URL at index [i]: the dict its task returned, or,
    when its task raised, a failed dict with that URL, no price and the text
    of the exception.  What the other tasks do has no part in it. *)
Theorem scrape_multiple_outcomes (urls : list string) :
  exists out,
    scrape_multiple run_task now urls = Ok out
    /\ List.length out = List.length urls
    /\ forall i url,
         nth_error urls i = Some url ->
         (forall d, run_task i url = Ok d -> nth_error out i = Some d)
         /\ (forall e, run_task i url = Raise e ->
                       nth_error out i
                       = Some (mkScrapeResult url None false (Some e) now)).
Proof.
  exists (outcomes_from run_task now 0 urls). split; [|split].
  - unfold scrape_multiple.
    now rewrite (process_results_gather urls urls 0 []).
  - apply outcomes_from_length.
  - intros i url H.
    pose proof (outcomes_from_nth urls 0 i url H) as E.
    unfold outcome_of in E. simpl in E.
    split; intros r Hr; now rewrite Hr in E.
Qed.

End BatchProperties.

(** ** The batch run *)

Section SchedulerProperties.

Variable urlparse_netloc : string -> Result string.
Variable re_findall : string -> string -> list string.
Variable cfg : Config.

Ltac run_item :=
  unfold process_product, process_body, check_change, price_change_of,
    Exn.try_except, Exn.bind, Exn.call, Exn.modify, Exn.ret.

Ltac step :=
  cbn -[Qabs Qmult Qdiv Qminus Qplus Qopp Qinv Qle_bool Qeq_bool
        String.append to_float].

(** The cases of [check_change], once the price is stored. *)
Ltac split_change env previous :=
  destruct previous as [previous|]; step;
  [ destruct (PrimFloat.eqb previous 0) eqn:Zero; step;
    [ | destruct (PrimFloat.leb _ _) eqn:Reached; step;
        [ destruct (notification_manager cfg) eqn:Enabled; step;
          [ destruct (send_price_change_notification env); step | ] | ] ]
  | ].

(** One turn of the loop never raises. *)
Lemma process_product_returns (env : ItemEnv) (product : Product)
    (st : RunState) :
  fst (process_product urlparse_netloc re_findall cfg env product st) = Ok tt.
Proof.
  unfold process_product, Exn.try_except.
  destruct (process_body _ _ _ _ _ _) as [[[]|msg] st']; reflexivity.
Qed.

(** One turn of the loop stores nothing but a positive price. *)
Lemma process_product_stored (env : ItemEnv) (product : Product)
    (st : RunState) :
  Forall (fun row => 0 < snd row) (stored st) ->
  Forall (fun row => 0 < snd row)
    (stored
       (snd (process_product urlparse_netloc re_findall cfg env product st))).
Proof.
  intros H. run_item.
  destruct (db_get_latest_price env) as [previous|]; [|exact H].
  destruct (scrape_sync _ _ _ _ _) as [d|] eqn:E; [|exact H].
  destruct (sr_success d) eqn:S; [|exact H].
  destruct (scrape_success_positive _ _ _ _ _ _ E S) as (p & -> & Hp).
  destruct (db_add_price env) as [[]|]; [|exact H].
  assert (H' : Forall (fun row => 0 < snd row)
                 (stored st ++ [(product_url product, p)]))
    by (apply Forall_app; split; [exact H | repeat constructor; exact Hp]).
  split_change env previous; exact H'.
Qed.

(** One turn of the loop counts its product once, unless the last stored
    price is 0. *)
Lemma process_product_counts (env : ItemEnv) (product : Product)
    (st : RunState) :
  (forall q,
      db_get_latest_price env = Ok (Some q) -> PrimFloat.eqb q 0 = false) ->
  let r := results st in
  let r' :=
    results
      (snd (process_product urlparse_netloc re_findall cfg env product st)) in
  (successful r' + failed r' = S (successful r + failed r))%nat
  /\ products_scraped r' = products_scraped r.
Proof.
  intros H. run_item.
  destruct (db_get_latest_price env) as [previous|] eqn:L; step;
    [|split; [lia | reflexivity]].
  destruct (scrape_sync _ _ _ _ _) as [d|]; step;
    [|split; [lia | reflexivity]].
  destruct (sr_success d); step; [|split; [lia | reflexivity]].
  destruct (sr_price d) as [p|]; step; [|split; [lia | reflexivity]].
  destruct (db_add_price env) as [[]|]; step; [|split; [lia | reflexivity]].
  split_change env previous; try (split; [lia | reflexivity]).
  rewrite (H previous eq_refl) in Zero. discriminate.
Qed.


Section Run.

Variable env : Product -> ItemEnv.
Variable send_scraping_summary : Result bool.
Variable end_time : nat.

Lemma for_products_returns (products : list Product) (st : RunState) :
  fst (for_products urlparse_netloc re_findall cfg env products st) = Ok tt.
Proof.
  revert st. induction products as [|product rest IH]; intros st;
    [reflexivity|].
  simpl. unfold Exn.bind.
  pose proof (process_product_returns (env product) product st) as R.
  destruct (process_product _ _ _ _ _ _) as [r st']. simpl in R. subst r.
  apply IH.
Qed.

Lemma for_products_stored (products : list Product) (st : RunState) :
  Forall (fun row => 0 < snd row) (stored st) ->
  Forall (fun row => 0 < snd row) (stored (snd (for_products urlparse_netloc re_findall cfg env products st))).
Proof.
  revert st. induction products as [|product rest IH]; intros st H;
    [exact H|].
  simpl. unfold Exn.bind.
  pose proof (process_product_returns (env product) product st) as R.
  pose proof (process_product_stored (env product) product st H) as S.
  destruct (process_product _ _ _ _ _ _) as [r st']. simpl in R, S. subst r.
  now apply IH.
Qed.

Lemma finish_run_keeps (st : RunState) :
  let st' := snd (finish_run cfg send_scraping_summary end_time st) in
  stored st' = stored st /\ results st' = results st
  /\ handed st' = handed st.
Proof.
  unfold finish_run, Exn.bind, Exn.modify, Exn.try_except, Exn.call, Exn.ret.
  cbn. destruct (price_changes (results st)); cbn; auto.
  destruct (notification_manager cfg); cbn; auto.
  destruct send_scraping_summary; cbn; auto.
Qed.

(** C9: a dict with [success] set carries a price above 0, because the
    selector loop gives only a price above 0 and the text scan only one
    between 0.01 and 999999; and every row a batch run appends to the
    [prices] table has a price above 0. *)
Theorem stored_prices_positive (stats0 : Stats) (products : list Product) :
  (forall query selectors p, try_selectors query selectors = Some p -> 0 < p)
  /\ (forall page p,
         _fallback_price_extraction re_findall page = Some p ->
         0.01 <= p /\ p <= 999999)
  /\ (forall page url css_selector d,
         scrape_sync urlparse_netloc re_findall page url css_selector = Ok d ->
         sr_success d = true ->
         exists p, sr_price d = Some p /\ 0 < p)
  /\ Forall (fun row => 0 < snd row)
       (stored
          (snd (scrape_all_products urlparse_netloc re_findall cfg env
                  send_scraping_summary end_time stats0 products))).
Proof.
  split; [apply try_selectors_positive|].
  split; [apply fallback_range|].
  split; [apply scrape_success_positive|].
  unfold scrape_all_products.
  destruct products as [|product rest]; [constructor|].
  set (products := product :: rest).
  set (st0 := mkRunState _ _ _ _ _).
  unfold Exn.bind.
  pose proof (for_products_returns products st0) as R.
  pose proof (for_products_stored products st0 (Forall_nil _)) as S.
  destruct (for_products urlparse_netloc re_findall cfg env products st0) as [r st']. simpl in R, S. subst r.
  destruct (finish_run_keeps st') as (-> & _). exact S.
Qed.

(** When no product has 0 for its last stored price, the two counts of a
    batch run add up to the number of products. *)
Lemma for_products_counts (products : list Product) (st : RunState) :
  (forall product q,
      In product products ->
      db_get_latest_price (env product) = Ok (Some q) ->
      PrimFloat.eqb q 0 = false) ->
  let r := results st in
  let r' := results (snd (for_products urlparse_netloc re_findall cfg env products st)) in
  (successful r' + failed r'
   = List.length products + (successful r + failed r))%nat
  /\ products_scraped r' = products_scraped r.
Proof.
  revert st. induction products as [|product rest IH]; intros st H;
    [simpl; auto|].
  simpl. unfold Exn.bind.
  pose proof (process_product_returns (env product) product st) as R.
  pose proof (process_product_counts (env product) product st
                (fun q => H product q (or_introl eq_refl))) as [C1 C2].
  destruct (process_product _ _ _ _ _ _) as [r st']. simpl in R, C1, C2.
  subst r.
  destruct (IH st' (fun p q Hp => H p q (or_intror Hp))) as [D1 D2].
  simpl in D1, D2. split; [lia | congruence].
Qed.

(** C10: the two counts of a batch run add up to the number of products,
    which is [products_scraped]: a product is counted once, whether its
    scrape succeeds, fails or raises, and whether the database raises.  The
    one statement that can raise after [successful] was counted is the
    division of line 129, and only for a previous price of 0; the [prices]
    table holds no such price, every row in it being above 0 (C9), so the
    prices the database returns are taken to be other than 0. *)
Theorem counts_add_up (stats0 : Stats) (products : list Product) :
  (forall product q,
      In product products ->
      db_get_latest_price (env product) = Ok (Some q) ->
      PrimFloat.eqb q 0 = false) ->
  let r :=
    results
      (snd (scrape_all_products urlparse_netloc re_findall cfg env
              send_scraping_summary end_time stats0 products)) in
  (successful r + failed r)%nat = products_scraped r
  /\ products_scraped r = List.length products.
Proof.
  intros H. unfold scrape_all_products.
  destruct products as [|product rest]; [simpl; auto|].
  set (products := product :: rest) in *.
  set (st0 := mkRunState _ _ _ _ _).
  unfold Exn.bind.
  pose proof (for_products_returns products st0) as R.
  destruct (for_products_counts products st0 H) as [C1 C2].
  destruct (for_products urlparse_netloc re_findall cfg env products st0) as [r st']. simpl in R, C1, C2. subst r.
  destruct (finish_run_keeps st') as (_ & -> & _).
  split; [lia | exact C2].
Qed.

End Run.

End SchedulerProperties.

(** A price above 0 is other than 0, in binary64 as elsewhere. *)
Lemma positive_is_not_zero (q : float) :
  PrimFloat.ltb 0 q = true -> PrimFloat.eqb q 0 = false.
Proof.
  rewrite ltb_spec, eqb_spec.
  change (Prim2SF 0) with (S754_zero false).
  destruct (Prim2SF q) as [[]|[]| |[] m e]; cbn; congruence.
Qed.



(** Two products, one whose page shows a price and one whose page shows
    none, both with a previous price above 0: each is counted once. *)
Lemma counts_add_up_witness :
  let env (product : Product) :=
    if String.eqb (product_label product) "Item"
    then item_env (Some 100%float) "$105.00"
    else item_env (Some 20%float) "sold out" in
  let r :=
    results
      (snd (scrape_all_products simple_netloc no_matches default_config env
              (Ok true) 0 no_stats
              [one_product;
               mkProduct "https://example.com/other" "Other" None])) in
  successful r = 1%nat /\ failed r = 1%nat /\ products_scraped r = 2%nat
  /\ (successful r + failed r)%nat = products_scraped r.
Proof.
  intros env r.
  assert (H : forall product q,
             In product
               [one_product;
                mkProduct "https://example.com/other" "Other" None] ->
             db_get_latest_price (env product) = Ok (Some q) ->
             PrimFloat.eqb q 0 = false).
  { intros product q [<-|[<-|[]]] E; injection E as <-; reflexivity. }
  pose proof
    (counts_add_up simple_netloc no_matches default_config env (Ok true) 0
       no_stats _ H) as [C _].
  split; [reflexivity|]. split; [reflexivity|]. split; [reflexivity|].
  exact C.
Defined.

(** A previous price of 0, which no writer of the [prices] table stores,
    would be counted twice: the scrape succeeds and is counted, the
    percentage then divides by zero, and the product is counted as failed as
    well. *)
Remark zero_previous_counted_twice :
  let r :=
    results
      (snd (scrape_all_products simple_netloc no_matches default_config
              (fun _ => item_env (Some 0%float) "$10.00") (Ok true) 0
              no_stats [one_product])) in
  products_scraped r = 1%nat /\ successful r = 1%nat /\ failed r = 1%nat
  /\ (successful r + failed r)%nat <> products_scraped r.
Proof. repeat split. discriminate. Qed.

(** ** More on the numeric price parser *)

Lemma digits_value_nonneg (s : string) :
  forall acc, (0 <= acc)%Z -> (0 <= digits_value acc s)%Z.
Proof.
  induction s as [|c s IH]; intros acc H; cbn [digits_value]; [exact H|].
  apply IH. pose proof (Zle_0_nat (code c - 48)). lia.
Qed.

Lemma py_float_nonneg (s : string) (q : Q) : py_float s = Some q -> 0 <= q.
Proof.
  unfold py_float. destruct (span_digits s) as [a r].
  assert (N : forall t d, 0 <= digits_value 0 t # d).
  { intros t d. unfold Qle. cbn [Qnum Qden].
    pose proof (digits_value_nonneg t 0 (Z.le_refl 0)). lia. }
  destruct r as [|c r'].
  - destruct (String.eqb a ""); [discriminate|].
    intros H. injection H as <-. apply N.
  - destruct (Ascii.eqb c "."); [|discriminate].
    destruct (span_digits r') as [b r'']. destruct r''; [|discriminate].
    destruct (String.eqb a "" && String.eqb b ""); [discriminate|].
    intros H. injection H as <-. apply N.
Qed.

(** X1: whatever the text, a price [_clean_price_text] returns is never
    negative. *)
Theorem clean_price_text_nonneg (text : string) (q : Q) :
  _clean_price_text text = Some q -> 0 <= q.
Proof.
  unfold _clean_price_text. destruct (String.eqb text ""); [discriminate|].
  apply py_float_nonneg.
Qed.

Lemma clean_price_text_nonneg_witness :
  _clean_price_text "-5.00" = Some 5.00 /\ 0 <= 5.00.
Proof.
  split; [reflexivity | exact (clean_price_text_nonneg "-5.00" 5.00 eq_refl)].
Defined.

Lemma space_is_no_price_char (c : ascii) :
  is_space c = true -> is_price_char c = false.
Proof.
  destruct c as [b0 b1 b2 b3 b4 b5 b6 b7].
  destruct b0, b1, b2, b3, b4, b5, b6, b7;
    vm_compute; intros H; congruence.
Qed.

Lemma keep_price_chars_step (c : ascii) (s : string) :
  keep_price_chars (String c s)
  = if is_price_char c then String c (keep_price_chars s)
    else keep_price_chars s.
Proof. reflexivity. Qed.

Lemma keep_price_chars_lstrip (s : string) :
  keep_price_chars (lstrip s) = keep_price_chars s.
Proof.
  induction s as [|c s IH]; [reflexivity|].
  cbn [lstrip]. destruct (is_space c) eqn:E; [|reflexivity].
  now rewrite IH, keep_price_chars_step, (space_is_no_price_char c E).
Qed.

Lemma keep_price_chars_rstrip (s : string) :
  keep_price_chars (rstrip s) = keep_price_chars s.
Proof.
  induction s as [|c s IH]; [reflexivity|].
  cbn [rstrip]. rewrite (keep_price_chars_step c s), <- IH.
  destruct (rstrip s) as [|a r]; [|reflexivity].
  destruct (is_space c) eqn:E.
  - now rewrite (space_is_no_price_char c E).
  - reflexivity.
Qed.

(** The [strip()] of line 86 changes nothing for the regular expression
    that follows it. *)
Lemma cleaned_of_keep (text : string) :
  cleaned_of text = keep_price_chars text.
Proof.
  unfold cleaned_of, strip.
  now rewrite keep_price_chars_rstrip, keep_price_chars_lstrip.
Qed.

(** X2: two texts, neither of them empty, that have the same digits, commas
    and periods in the same order parse to the same price: currency signs,
    letters and spaces, wherever they stand, play no part. *)
Theorem clean_price_text_ignores_symbols (text1 text2 : string) :
  text1 <> "" -> text2 <> "" ->
  keep_price_chars text1 = keep_price_chars text2 ->
  _clean_price_text text1 = _clean_price_text text2.
Proof.
  intros H1 H2 E.
  rewrite (clean_price_text_nonempty text1 H1),
    (clean_price_text_nonempty text2 H2).
  now rewrite !cleaned_of_keep, E.
Qed.

Lemma clean_price_text_ignores_symbols_witness :
  _clean_price_text "  $ 1,299.00" = _clean_price_text "EUR 1,299.00 net".
Proof.
  exact (clean_price_text_ignores_symbols "  $ 1,299.00" "EUR 1,299.00 net"
           ltac:(discriminate) ltac:(discriminate) eq_refl).
Defined.

Lemma only_price_chars_keep (s : string) :
  only_price_chars (keep_price_chars s) = true.
Proof.
  induction s as [|c s IH]; [reflexivity|].
  rewrite keep_price_chars_step. destruct (is_price_char c) eqn:E; [|exact IH].
  simpl. now rewrite E.
Qed.

Lemma keep_price_chars_id (s : string) :
  only_price_chars s = true -> keep_price_chars s = s.
Proof.
  induction s as [|c s IH]; [reflexivity|]. simpl only_price_chars.
  intros H. apply andb_true_iff in H as [Hc Hs].
  rewrite keep_price_chars_step, Hc. now rewrite IH.
Qed.

Ltac by_char c :=
  unfold is_price_char;
  destruct (is_digit c) eqn:Dg, (Ascii.eqb c ".") eqn:Pt,
    (Ascii.eqb c ",") eqn:Cm;
  cbn [only_price_chars only_digits_and_periods is_price_char];
  rewrite ?Dg, ?Pt, ?Cm; simpl; unfold is_price_char;
  rewrite ?Dg, ?Pt, ?Cm; simpl; intros; try discriminate; auto.

Lemma remove_comma_clean (s : string) :
  only_price_chars s = true ->
  only_digits_and_periods (remove_char "," s) = true.
Proof.
  induction s as [|c s IH]; [reflexivity|].
  cbn [only_price_chars only_digits_and_periods remove_char subst_char
         contains_char].
  revert IH. by_char c.
Qed.

Lemma subst_comma_clean (s : string) :
  only_price_chars s = true ->
  only_digits_and_periods (subst_char "," "." s) = true.
Proof.
  induction s as [|c s IH]; [reflexivity|].
  cbn [only_price_chars only_digits_and_periods remove_char subst_char
         contains_char].
  revert IH. by_char c.
Qed.

Lemma remove_period_keeps (s : string) :
  only_price_chars s = true -> only_price_chars (remove_char "." s) = true.
Proof.
  induction s as [|c s IH]; [reflexivity|].
  cbn [only_price_chars only_digits_and_periods remove_char subst_char
         contains_char].
  revert IH. by_char c.
Qed.

Lemma no_comma_clean (s : string) :
  contains_char "," s = false -> only_price_chars s = true ->
  only_digits_and_periods s = true.
Proof.
  induction s as [|c s IH]; [reflexivity|].
  cbn [only_price_chars only_digits_and_periods remove_char subst_char
         contains_char].
  revert IH. by_char c.
Qed.

Lemma normalize_no_comma (s : string) :
  contains_char "," s = false -> normalize_separators s = s.
Proof. intros H. unfold normalize_separators. now rewrite H. Qed.

(** X3: what [_clean_price_text] hands to [float] is made of digits and
    periods only: no comma and no other character reaches it. *)
Theorem float_argument_alphabet (text : string) :
  only_digits_and_periods (normalize_separators (cleaned_of text)) = true.
Proof.
  rewrite cleaned_of_keep.
  pose proof (only_price_chars_keep text) as K.
  set (cleaned := keep_price_chars text) in *.
  destruct (contains_char "," cleaned) eqn:Hc.
  2:{ rewrite (normalize_no_comma _ Hc). now apply no_comma_clean. }
  destruct (contains_char "." cleaned) eqn:Hp.
  - rewrite (normalize_both _ Hc Hp). unfold later_separator_rule.
    rewrite later_separator_rindex.
    destruct (rindex "," cleaned) as [i|] eqn:Ei.
    2:{ apply rindex_none_iff in Ei. congruence. }
    destruct (rindex "." cleaned) as [j|] eqn:Ej.
    2:{ apply rindex_none_iff in Ej. congruence. }
    destruct (i <? j)%nat.
    + change (other_separator ".") with ","%char.
      rewrite subst_char_same. now apply remove_comma_clean.
    + change (other_separator ",") with "."%char.
      now apply subst_comma_clean, remove_period_keeps.
  - rewrite (normalize_comma_only _ Hc Hp).
    destruct (decimal_comma cleaned);
      [now apply subst_comma_clean | now apply remove_comma_clean].
Qed.

Lemma digit_is_no_separator (c : ascii) :
  is_digit c = true -> Ascii.eqb c "." = false /\ Ascii.eqb c "," = false.
Proof.
  intros H. split.
  - destruct (Ascii.eqb c ".") eqn:E; [|reflexivity].
    apply Ascii.eqb_eq in E. subst. discriminate.
  - destruct (Ascii.eqb c ",") eqn:E; [|reflexivity].
    apply Ascii.eqb_eq in E. subst. discriminate.
Qed.

Lemma count_char_app (c : ascii) (a b : string) :
  count_char c (a ++ b) = (count_char c a + count_char c b)%nat.
Proof.
  induction a as [|x a IH]; [reflexivity|]. simpl. rewrite IH. lia.
Qed.

Lemma count_period_digits (a : string) :
  all_digits a = true -> count_char "." a = 0%nat.
Proof.
  induction a as [|c a IH]; [reflexivity|]. simpl. intros H.
  apply andb_true_iff in H as [Hc Ha].
  destruct (digit_is_no_separator c Hc) as [-> _]. now rewrite IH.
Qed.

Lemma count_comma_digits (a : string) :
  all_digits a = true -> count_char "," a = 0%nat.
Proof.
  induction a as [|c a IH]; [reflexivity|]. simpl. intros H.
  apply andb_true_iff in H as [Hc Ha].
  destruct (digit_is_no_separator c Hc) as [_ ->]. now rewrite IH.
Qed.

Lemma decimal_literal_one_period (s : string) :
  decimal_literal s -> (count_char "." s <= 1)%nat.
Proof.
  intros [[Hs _] | (a & b & Ha & Hb & _ & ->)].
  - rewrite (count_period_digits s Hs). lia.
  - rewrite !count_char_app, (count_period_digits a Ha),
      (count_period_digits b Hb). simpl. lia.
Qed.

(** X4: a text with no comma and two periods or more, such as a price
    written with periods between the thousands, does not parse: the result
    is [None]. *)
Theorem several_periods_rejected (text : string) :
  contains_char "," (cleaned_of text) = false ->
  (2 <= count_char "." (cleaned_of text))%nat ->
  _clean_price_text text = None.
Proof.
  intros Hc Hp. unfold _clean_price_text.
  destruct (String.eqb text ""); [reflexivity|].
  rewrite (normalize_no_comma _ Hc). apply py_float_none_iff.
  intros L. apply decimal_literal_one_period in L. lia.
Qed.

Lemma several_periods_rejected_witness :
  _clean_price_text "EUR 1.234.567" = None.
Proof.
  apply (several_periods_rejected "EUR 1.234.567"); [reflexivity|].
  vm_compute. lia.
Defined.

Lemma contains_char_app (c : ascii) (a b : string) :
  contains_char c (a ++ b) = contains_char c a || contains_char c b.
Proof.
  induction a as [|x a IH]; [reflexivity|]. simpl.
  now rewrite IH, orb_assoc.
Qed.

Lemma only_price_chars_app (a b : string) :
  only_price_chars (a ++ b) = only_price_chars a && only_price_chars b.
Proof.
  induction a as [|x a IH]; [reflexivity|]. simpl.
  now rewrite IH, andb_assoc.
Qed.

Lemma digits_are_price_chars (a : string) :
  all_digits a = true ->
  only_price_chars a = true
  /\ contains_char "," a = false /\ contains_char "." a = false.
Proof.
  induction a as [|c a IH]; [auto|]. simpl. intros H.
  apply andb_true_iff in H as [Hc Ha].
  destruct (IH Ha) as (-> & -> & ->).
  destruct (digit_is_no_separator c Hc) as [-> ->].
  unfold is_price_char. now rewrite Hc.
Qed.

Lemma after_first_app (c : ascii) (a b : string) :
  contains_char c a = false -> after_first c (a ++ String c b) = b.
Proof.
  induction a as [|x a IH]; simpl.
  - now rewrite Ascii.eqb_refl.
  - intros H. apply orb_false_iff in H as [-> H]. auto.
Qed.

Lemma subst_char_app (c d : ascii) (a b : string) :
  subst_char c d (a ++ b) = subst_char c d a ++ subst_char c d b.
Proof.
  induction a as [|x a IH]; [reflexivity|]. simpl. now rewrite IH.
Qed.

Lemma remove_char_app (c : ascii) (a b : string) :
  remove_char c (a ++ b) = remove_char c a ++ remove_char c b.
Proof.
  induction a as [|x a IH]; [reflexivity|]. simpl.
  destruct (Ascii.eqb x c); simpl; now rewrite IH.
Qed.

Lemma subst_char_absent (c d : ascii) (a : string) :
  contains_char c a = false -> subst_char c d a = a.
Proof.
  induction a as [|x a IH]; [reflexivity|]. simpl. intros H.
  apply orb_false_iff in H as [-> H]. now rewrite IH.
Qed.

Lemma remove_char_absent (c : ascii) (a : string) :
  contains_char c a = false -> remove_char c a = a.
Proof.
  induction a as [|x a IH]; [reflexivity|]. simpl. intros H.
  apply orb_false_iff in H as [-> H]. now rewrite IH.
Qed.

(** A text of price characters without a comma is handed to [float] as it
    is. *)
Lemma clean_price_text_plain (s : string) :
  s <> "" -> only_price_chars s = true -> contains_char "," s = false ->
  _clean_price_text s = py_float s.
Proof.
  intros Hne Hp Hc.
  rewrite (clean_price_text_nonempty s Hne), cleaned_of_keep,
    (keep_price_chars_id s Hp).
  now rewrite normalize_no_comma.
Qed.

(** X5: between two runs of digits, a comma followed by at most two digits
    reads as the decimal point, so that "12,50" and "12.50" give the same
    price; followed by three digits or more it reads as if it were not
    there, so that "1,234" and "1234" give the same price. *)
Theorem comma_between_digits (a b : string) :
  all_digits a = true -> all_digits b = true ->
  ((String.length b <= 2)%nat ->
   _clean_price_text (a ++ "," ++ b) = _clean_price_text (a ++ "." ++ b))
  /\ ((3 <= String.length b)%nat ->
      _clean_price_text (a ++ "," ++ b) = _clean_price_text (a ++ b)).
Proof.
  intros Ha Hb.
  destruct (digits_are_price_chars a Ha) as (Pa & Ca & Da).
  destruct (digits_are_price_chars b Hb) as (Pb & Cb & Db).
  assert (L : _clean_price_text (a ++ "," ++ b)
              = py_float (if (String.length b <=? 2)%nat
                          then a ++ "." ++ b else a ++ b)).
  { rewrite clean_price_text_nonempty by (destruct a; discriminate).
    rewrite cleaned_of_keep, keep_price_chars_id
      by (rewrite only_price_chars_app, Pa; simpl; exact Pb).
    rewrite normalize_comma_only.
    - unfold decimal_comma.
      rewrite count_char_app, (count_comma_digits a Ha). simpl.
      rewrite (count_comma_digits b Hb), (after_first_app "," a b Ca).
      simpl. destruct (String.length b <=? 2)%nat.
      + rewrite subst_char_app, (subst_char_absent _ _ a Ca). simpl.
        now rewrite (subst_char_absent _ _ b Cb).
      + rewrite remove_char_app, (remove_char_absent _ a Ca). simpl.
        now rewrite (remove_char_absent _ b Cb).
    - rewrite contains_char_app. simpl. apply orb_true_r.
    - rewrite contains_char_app, Da. simpl. exact Db. }
  split; intros Hl; rewrite L.
  - apply Nat.leb_le in Hl. rewrite Hl. symmetry.
    apply clean_price_text_plain.
    + destruct a; discriminate.
    + rewrite only_price_chars_app, Pa. simpl. exact Pb.
    + rewrite contains_char_app, Ca. simpl. exact Cb.
  - assert (E : (String.length b <=? 2)%nat = false)
      by (apply Nat.leb_gt; lia).
    rewrite E. symmetry. apply clean_price_text_plain.
    + destruct a; [|discriminate]. destruct b; [simpl in Hl; lia|discriminate].
    + now rewrite only_price_chars_app, Pa.
    + now rewrite contains_char_app, Ca.
Qed.

Lemma comma_between_digits_witness :
  _clean_price_text "12,50" = _clean_price_text "12.50"
  /\ _clean_price_text "1,234" = _clean_price_text "1234".
Proof.
  split.
  - apply (proj1 (comma_between_digits "12" "50" eq_refl eq_refl)).
    simpl. lia.
  - apply (proj2 (comma_between_digits "1" "234" eq_refl eq_refl)).
    simpl. lia.
Defined.

(** ** More on selector resolution and on the extractor *)

Section MoreExtractorProperties.

Variable urlparse_netloc : string -> Result string.
Variable re_findall : string -> string -> list string.

(** X6: when [urlparse] raises on the URL and there is no override, the
    domain is empty, no site matches it and the generic selectors are
    used. *)
Theorem unparsable_url_gets_generic_selectors (url e : string) :
  urlparse_netloc url = Raise e ->
  _get_domain urlparse_netloc url = ""
  /\ _get_price_selectors urlparse_netloc url None = generic_selectors
  /\ _get_price_selectors urlparse_netloc url (Some "") = generic_selectors.
Proof.
  intros H. unfold _get_price_selectors, _get_domain. rewrite H.
  repeat split.
Qed.

Lemma try_selectors_step
    (query : string -> Result (list (Result string)))
    (selector : string) (rest : list string) :
  try_selectors query (selector :: rest)
  = match selector_price query selector with
    | Some p => Some p
    | None => try_selectors query rest
    end.
Proof.
  unfold selector_price. simpl.
  destruct (query selector) as [elements|]; [|reflexivity].
  destruct (first_price_in elements) as [price|]; [|reflexivity].
  destruct price as [p|]; simpl; [|reflexivity].
  destruct (negb (Qeq_bool p 0)); reflexivity.
Qed.

(** X7: the cascade is a priority order.  The price is that of the first
    selector, in the order of the list, that gives one, whatever the
    selectors after it would give; and the cascade gives nothing exactly
    when every selector gives nothing, a selector whose query raises
    counting as one that gives nothing. *)
Theorem first_selector_wins
    (query : string -> Result (list (Result string))) :
  (forall before selector after p,
      (forall s, In s before -> selector_price query s = None) ->
      selector_price query selector = Some p ->
      try_selectors query (before ++ selector :: after) = Some p)
  /\ (forall selectors,
         try_selectors query selectors = None <->
         forall s, In s selectors -> selector_price query s = None).
Proof.
  split.
  - intros before selector after p Hb Hs.
    induction before as [|s0 before IH]; simpl app;
      rewrite try_selectors_step.
    + now rewrite Hs.
    + rewrite (Hb s0 (or_introl eq_refl)). apply IH.
      intros s Hin. apply Hb. now right.
  - induction selectors as [|s0 rest IH].
    + simpl. split; [intros _ s [] | reflexivity].
    + rewrite try_selectors_step.
      destruct (selector_price query s0) as [p|] eqn:E.
      * split; [discriminate|]. intros H.
        rewrite (H s0 (or_introl eq_refl)) in E. discriminate.
      * rewrite IH. split.
        -- intros H s [<- | Hin]; auto.
        -- intros H s Hin. apply H. now right.
Qed.

(** X8: inside one selector, the elements are read in order until one holds
    a positive price; an element whose [inner_text] raises before that
    makes the selector give nothing, whatever the elements after it
    hold. *)
Theorem raising_element_hides_the_rest
    (query : string -> Result (list (Result string)))
    (selector e : string) (before after : list (Result string)) :
  query selector = Ok (before ++ Raise e :: after)%list ->
  (forall r, In r before ->
     exists text, r = Ok text /\ first_price_in [Ok text] = Ok None) ->
  selector_price query selector = None.
Proof.
  intros Hq Hb. unfold selector_price. rewrite Hq.
  assert (E : first_price_in (before ++ Raise e :: after) = Raise e).
  { clear Hq. induction before as [|r before IH]; [reflexivity|].
    destruct (Hb r (or_introl eq_refl)) as (text & -> & Ht).
    assert (IH' : first_price_in (before ++ Raise e :: after) = Raise e)
      by (apply IH; intros r Hin; apply Hb; now right).
    simpl in *. destruct (_clean_price_text text) as [q|]; [|exact IH'].
    destruct (truthy (Some q) && Qlt_bool 0 q); [discriminate Ht | exact IH']. }
  now rewrite E.
Qed.

End MoreExtractorProperties.

Lemma unparsable_url_gets_generic_selectors_witness :
  _get_domain failing_netloc "http://[::1/item" = ""
  /\ _get_price_selectors failing_netloc "http://[::1/item" None
     = generic_selectors
  /\ _get_price_selectors failing_netloc "http://[::1/item" (Some "")
     = generic_selectors.
Proof.
  exact (unparsable_url_gets_generic_selectors failing_netloc
           "http://[::1/item" "Invalid IPv6 URL" eq_refl).
Defined.

Lemma raising_element_hides_the_rest_witness :
  selector_price
    (fun _ => Ok [Ok "n/a"; Raise "Element is detached"; Ok "$5.00"])
    ".price" = None.
Proof.
  apply (raising_element_hides_the_rest
           (fun _ => Ok [Ok "n/a"; Raise "Element is detached"; Ok "$5.00"])
           ".price" "Element is detached" [Ok "n/a"] [Ok "$5.00"] eq_refl).
  intros r [<- | []]. exists "n/a". split; reflexivity.
Defined.

Section ScrapeOutcomes.

Variable urlparse_netloc : string -> Result string.
Variable re_findall : string -> string -> list string.

Ltac run_scrape :=
  unfold scrape_price, scrape_price_from, scrape_block, with_playwright,
    _wait_for_page_load, Exn.try_except, Exn.bind, Exn.call, Exn.modify,
    Exn.ret;
  cbn [fst snd resources result on_resources on_result].

Ltac split_outcomes page :=
  destruct (pw_start page) as [[]|], (pw_launch page) as [[]|],
    (pw_new_context page) as [[]|], (pw_new_page page) as [[]|],
    (pw_goto page) as [[]|], (pw_networkidle page) as [[]|],
    (pw_browser_close page) as [[]|].

Lemma positive_is_truthy (p : Q) : 0 < p -> truthy (Some p) = true.
Proof.
  intros H. simpl. apply negb_true_iff.
  destruct (Qeq_bool p 0) eqn:E; [|reflexivity].
  apply Qeq_bool_iff in E. rewrite E in H. now apply Qlt_irrefl in H.
Qed.

Lemma fallback_truthy (page : PageEnv) (p : Q) :
  _fallback_price_extraction re_findall page = Some p ->
  truthy (Some p) = true.
Proof.
  intros H. apply fallback_range in H as [H _]. apply positive_is_truthy.
  apply Qlt_le_trans with (y := 0.01); [reflexivity | exact H].
Qed.

(** X9: whatever the browser does, the dict [scrape_price] returns has the
    URL it was called with and the time of the call; [success] is set
    exactly when it holds a price; and a dict without [success] holds an
    error text. *)
Theorem scrape_price_dict_shape (page : PageEnv) (url : string)
    (css_selector : option string) :
  match scrape_price urlparse_netloc re_findall page url css_selector with
  | Ok d =>
      sr_url d = url /\ sr_timestamp d = pw_time page
      /\ (sr_success d = true <-> sr_price d <> None)
      /\ (sr_success d = false -> sr_error d <> None)
  | Raise _ => False
  end.
Proof.
  run_scrape.
  set (found := try_selectors _ _).
  generalize (if negb (truthy found)
              then _fallback_price_extraction re_findall page
              else found).
  intros price.
  split_outcomes page; cbn;
    try (destruct (truthy price) eqn:T; cbn);
    repeat split; try discriminate; try tauto;
    try (destruct price; [discriminate | discriminate T]);
    intros H; now contradiction H.
Qed.

(** X10: on a page that loads and whose browser closes, the price is the
    one the selectors give; when they give none, the one the text scan
    gives; and when that gives none either, the dict is a failure whose
    error is "No price found with any selector". *)
Theorem scrape_price_on_loaded_page (page : PageEnv) (url : string)
    (css_selector : option string) :
  page_loads page -> pw_browser_close page = Ok tt ->
  scrape_price urlparse_netloc re_findall page url css_selector
  = Ok match try_selectors (pw_query_selector_all page)
               (_get_price_selectors urlparse_netloc url css_selector) with
       | Some p => found_dict url p (pw_time page)
       | None =>
           match _fallback_price_extraction re_findall page with
           | Some p => found_dict url p (pw_time page)
           | None => not_found_dict url (pw_time page)
           end
       end.
Proof.
  intros (H0 & H1 & H2 & H3 & H4) H5. run_scrape.
  rewrite H0, H1, H2, H3, H4, H5. cbn -[truthy].
  destruct (try_selectors _ _) as [p|] eqn:E.
  - apply try_selectors_positive in E.
    rewrite (positive_is_truthy p E). cbn -[truthy].
    rewrite (positive_is_truthy p E).
    destruct (pw_networkidle page) as [[]|]; reflexivity.
  - change (truthy None) with false. cbn -[truthy].
    destruct (_fallback_price_extraction re_findall page) as [p|] eqn:F.
    + rewrite (fallback_truthy page p F).
      destruct (pw_networkidle page) as [[]|]; reflexivity.
    + change (truthy None) with false.
      destruct (pw_networkidle page) as [[]|]; reflexivity.
Qed.

(** X11: when the page loads and a price is found but closing the browser
    raises, the dict keeps the price and [success], and holds the text of
    the exception as its error as well. *)
Theorem close_error_after_success (page : PageEnv) (url : string)
    (css_selector : option string) (p : Q) (e : string) :
  page_loads page -> pw_browser_close page = Raise e ->
  try_selectors (pw_query_selector_all page)
    (_get_price_selectors urlparse_netloc url css_selector) = Some p ->
  scrape_price urlparse_netloc re_findall page url css_selector
  = Ok (mkScrapeResult url (Some p) true
          (Some ("Scraping error for " ++ url ++ ": " ++ e)) (pw_time page)).
Proof.
  intros (H0 & H1 & H2 & H3 & H4) H5 E. run_scrape.
  rewrite H0, H1, H2, H3, H4, H5, E. cbn -[truthy].
  apply try_selectors_positive in E.
  rewrite (positive_is_truthy p E). cbn -[truthy].
  rewrite (positive_is_truthy p E).
  destruct (pw_networkidle page) as [[]|]; reflexivity.
Qed.

(** X12: what the wait for network idle does, return or time out, changes
    nothing in the dict [scrape_price] returns. *)
Theorem networkidle_timeout_is_tolerated (page : PageEnv) (url : string)
    (css_selector : option string) (r : Result unit) :
  scrape_price urlparse_netloc re_findall (with_networkidle r page) url
    css_selector
  = scrape_price urlparse_netloc re_findall page url css_selector.
Proof.
  run_scrape. unfold _fallback_price_extraction. destruct page. cbn.
  destruct r as [[]|], pw_start0 as [[]|], pw_launch0 as [[]|],
    pw_new_context0 as [[]|], pw_new_page0 as [[]|], pw_goto0 as [[]|],
    pw_networkidle0 as [[]|]; reflexivity.
Qed.

End ScrapeOutcomes.

Lemma scrape_price_on_loaded_page_witness :
  scrape_price simple_netloc no_matches (page_showing [Ok "$19.99"])
    "https://example.com/item" (Some ".price")
  = Ok (found_dict "https://example.com/item" 19.99 0).
Proof.
  apply (scrape_price_on_loaded_page simple_netloc no_matches
           (page_showing [Ok "$19.99"]) "https://example.com/item"
           (Some ".price")).
  - repeat split.
  - reflexivity.
Defined.

Lemma close_error_after_success_witness :
  scrape_price simple_netloc no_matches (page_close_fails [Ok "$19.99"])
    "https://example.com/item" (Some ".price")
  = Ok (mkScrapeResult "https://example.com/item" (Some 19.99) true
          (Some "Scraping error for https://example.com/item: Target closed")
          0).
Proof.
  apply (close_error_after_success simple_netloc no_matches
           (page_close_fails [Ok "$19.99"]) "https://example.com/item"
           (Some ".price") 19.99 "Target closed").
  - repeat split.
  - reflexivity.
  - reflexivity.
Defined.

(** ** The batch scraper over [scrape_price] *)

Section BatchOfScrapes.

Variable urlparse_netloc : string -> Result string.
Variable re_findall : string -> string -> list string.
Variable pages : nat -> PageEnv.
Variable css_selector : option string.
Variable now : nat.

Lemma scrape_price_returns (page : PageEnv) (url : string) :
  exists d,
    scrape_price urlparse_netloc re_findall page url css_selector = Ok d
    /\ sr_url d = url.
Proof.
  unfold scrape_price, scrape_price_from, scrape_block, with_playwright,
    _wait_for_page_load, Exn.try_except, Exn.bind, Exn.call, Exn.modify,
    Exn.ret.
  cbn [fst snd resources result on_resources on_result].
  generalize (if negb (truthy (try_selectors (pw_query_selector_all page)
                                 (_get_price_selectors urlparse_netloc url
                                    css_selector)))
              then _fallback_price_extraction re_findall page
              else try_selectors (pw_query_selector_all page)
                     (_get_price_selectors urlparse_netloc url css_selector)).
  intros price.
  destruct (pw_start page) as [[]|], (pw_launch page) as [[]|],
    (pw_new_context page) as [[]|], (pw_new_page page) as [[]|],
    (pw_goto page) as [[]|], (pw_networkidle page) as [[]|],
    (pw_browser_close page) as [[]|]; cbn;
    try destruct (truthy price); cbn; eauto.
Qed.

(** X13: over [scrape_price], [scrape_multiple] never takes its exception
    branch: each task returns a dict, the dict at index [i] is the one
    [scrape_price] returns for the URL at index [i], and it carries that
    URL. *)
Theorem scrape_multiple_of_scrape_price (urls : list string) :
  exists out,
    scrape_multiple
      (scrape_with_semaphore urlparse_netloc re_findall pages css_selector)
      now urls = Ok out
    /\ List.length out = List.length urls
    /\ forall i url,
         nth_error urls i = Some url ->
         exists d,
           nth_error out i = Some d /\ sr_url d = url
           /\ scrape_price urlparse_netloc re_findall (pages i) url
                css_selector = Ok d.
Proof.
  set (task := scrape_with_semaphore urlparse_netloc re_findall pages
                 css_selector).
  exists (outcomes_from task now 0 urls). split; [|split].
  - unfold scrape_multiple.
    now rewrite (process_results_gather task now urls urls 0 []).
  - apply outcomes_from_length.
  - intros i url H.
    destruct (scrape_price_returns (pages i) url) as (d & Hd & Hu).
    exists d. rewrite (outcomes_from_nth task now urls 0 i url H).
    unfold outcome_of, task, scrape_with_semaphore. simpl.
    rewrite Hd. auto.
Qed.

End BatchOfScrapes.

(** ** More on the batch run *)

Section RunBookkeeping.

Variable urlparse_netloc : string -> Result string.
Variable re_findall : string -> string -> list string.
Variable cfg : Config.

Ltac run_item :=
  unfold process_product, process_body, check_change, price_change_of,
    new_rows, new_changes, stored_price, change_event,
    Exn.try_except, Exn.bind, Exn.call, Exn.modify, Exn.ret.

Ltac step :=
  cbn -[Qabs Qmult Qdiv Qminus Qplus Qopp Qinv Qle_bool Qeq_bool
        String.append to_float].

(** Every way one turn of the loop can go. *)
Ltac split_item env d :=
  destruct (db_get_latest_price env) as [[previous|]|]; step;
  [ destruct (scrape_sync _ _ _ _ _) as [d|]; step;
    [ destruct (sr_success d); step;
      [ destruct (sr_price d) as [current|]; step;
        [ destruct (db_add_price env) as [[]|]; step;
          [ destruct (PrimFloat.eqb previous 0); step;
            [ | destruct (PrimFloat.leb _ _); step;
                [ destruct (notification_manager cfg); step;
                  [ destruct (send_price_change_notification env); step
                  | ]
                | ] ]
          | ]
        | ]
      | ]
    | ]
  | destruct (scrape_sync _ _ _ _ _) as [d|]; step;
    [ destruct (sr_success d); step;
      [ destruct (sr_price d) as [current|]; step;
        [ destruct (db_add_price env) as [[]|]; step | ]
      | ]
    | ]
  | ].

(** What one turn of the loop does to the lists of the run. *)
Lemma process_product_lists (env : ItemEnv) (product : Product)
    (st : RunState) :
  let st' :=
    snd (process_product urlparse_netloc re_findall cfg env product st) in
  let changes := new_changes urlparse_netloc re_findall cfg env product in
  stored st' = (stored st ++ new_rows urlparse_netloc re_findall env product)%list
  /\ price_changes (results st') = (price_changes (results st) ++ changes)%list
  /\ handed st'
     = (handed st ++ if notification_manager cfg then changes else [])%list
  /\ summaries st' = summaries st.
Proof.
  run_item. split_item env d;
    try destruct (notification_manager cfg);
    rewrite ?app_nil_r; repeat split; reflexivity.
Qed.

(** What one turn of the loop does to the counts of the run. *)
Lemma process_product_numbers (env : ItemEnv) (product : Product)
    (st : RunState) :
  let st' :=
    snd (process_product urlparse_netloc re_findall cfg env product st) in
  let r := results st in
  let r' := results st' in
  (List.length (errors r') + failed r
   = List.length (errors r) + failed r')%nat
  /\ (successful r'
      = successful r
        + List.length (new_rows urlparse_netloc re_findall env product))%nat
  /\ products_scraped r' = products_scraped r.
Proof.
  run_item. split_item env d;
    rewrite ?length_app; simpl; repeat split; lia.
Qed.

(** What one turn of the loop does to [self.stats]. *)
Lemma process_product_stats (env : ItemEnv) (product : Product)
    (st : RunState) :
  let st' :=
    snd (process_product urlparse_netloc re_findall cfg env product st) in
  let s := stats st in
  let s' := stats st' in
  (total_scrapes s' + successful_scrapes s + failed_scrapes s
   = total_scrapes s + successful_scrapes s' + failed_scrapes s')%nat
  /\ (total_scrapes s <= total_scrapes s' <= S (total_scrapes s))%nat
  /\ (successful_scrapes s <= successful_scrapes s')%nat
  /\ (failed_scrapes s <= failed_scrapes s')%nat
  /\ (successful_scrapes s' + successful (results st)
      <= successful_scrapes s + successful (results st'))%nat
  /\ last_run s' = last_run s.
Proof.
  run_item. split_item env d; simpl; repeat split; lia.
Qed.


(** What one turn of the loop does to the count of notifications. *)
Lemma process_product_notifications (env : ItemEnv) (product : Product)
    (st : RunState) :
  let st' :=
    snd (process_product urlparse_netloc re_findall cfg env product st) in
  let sent :=
    List.length (if notification_manager cfg
                 then new_changes urlparse_netloc re_findall cfg env product
                 else []) in
  (notifications_sent (stats st) <= notifications_sent (stats st')
   <= notifications_sent (stats st) + sent)%nat
  /\ ((exists b, send_price_change_notification env = Ok b) ->
      notifications_sent (stats st')
      = (notifications_sent (stats st) + sent)%nat).
Proof.
  run_item. split_item env d;
    try destruct (notification_manager cfg);
    simpl; repeat split; try lia;
    intros [b Hb]; discriminate Hb.
Qed.

(** A change event is recorded only for a product whose price is
    stored. *)
Lemma new_changes_le_rows (env : ItemEnv) (product : Product) :
  (List.length (new_changes urlparse_netloc re_findall cfg env product)
   <= List.length (new_rows urlparse_netloc re_findall env product))%nat.
Proof.
  unfold new_changes, new_rows.
  destruct (stored_price _ _ _ _) as [current|]; [|simpl; lia].
  destruct (db_get_latest_price env) as [[previous|]|]; simpl; try lia.
  destruct (PrimFloat.eqb previous 0); simpl; [lia|].
  destruct (PrimFloat.leb _ _); simpl; lia.
Qed.

(** What one turn of the loop does to the count of failures. *)
Lemma process_product_failed (env : ItemEnv) (product : Product)
    (st : RunState) :
  failed
    (results
       (snd (process_product urlparse_netloc re_findall cfg env product st)))
  = (failed (results st)
     + if counted_failed urlparse_netloc re_findall env product
       then 1 else 0)%nat.
Proof.
  unfold counted_failed. run_item. split_item env d; simpl; lia.
Qed.

Lemma flat_map_short {A B : Type} (f : A -> list B) (l : list A) :
  (forall a, List.length (f a) <= 1)%nat ->
  (List.length (flat_map f l) <= List.length l)%nat.
Proof.
  intros H. induction l as [|a l IH]; simpl; [lia|].
  rewrite length_app. pose proof (H a). lia.
Qed.

Lemma flat_map_shorter {A B C : Type} (f : A -> list B) (g : A -> list C)
    (l : list A) :
  (forall a, List.length (f a) <= List.length (g a))%nat ->
  (List.length (flat_map f l) <= List.length (flat_map g l))%nat.
Proof.
  intros H. induction l as [|a l IH]; simpl; [lia|].
  rewrite !length_app. pose proof (H a). lia.
Qed.

Section WholeRun.

Variable env : Product -> ItemEnv.
Variable send_scraping_summary : Result bool.
Variable end_time : nat.

Ltac next_product product st :=
  simpl; unfold Exn.bind;
  pose proof (process_product_returns urlparse_netloc re_findall cfg
                (env product) product st) as R;
  destruct (process_product urlparse_netloc re_findall cfg (env product)
              product st) as [r st'] eqn:E;
  simpl in R; subst r.

Lemma for_products_lists (products : list Product) (st : RunState) :
  let st' :=
    snd (for_products urlparse_netloc re_findall cfg env products st) in
  let rows :=
    flat_map (fun p => new_rows urlparse_netloc re_findall (env p) p)
      products in
  let changes :=
    flat_map (fun p => new_changes urlparse_netloc re_findall cfg (env p) p)
      products in
  stored st' = (stored st ++ rows)%list
  /\ price_changes (results st') = (price_changes (results st) ++ changes)%list
  /\ handed st'
     = (handed st ++ if notification_manager cfg then changes else [])%list
  /\ summaries st' = summaries st.
Proof.
  revert st. induction products as [|product rest IH]; intros st.
  - simpl. rewrite !app_nil_r.
    destruct (notification_manager cfg); rewrite ?app_nil_r; auto.
  - pose proof (process_product_lists (env product) product st) as P.
    next_product product st. try rewrite E in P. simpl in P.
    destruct P as (P1 & P2 & P3 & P4).
    destruct (IH st') as (I1 & I2 & I3 & I4). simpl in I1, I2, I3, I4.
    rewrite I1, I2, I3, I4, P1, P2, P3, P4.
    destruct (notification_manager cfg);
      rewrite <- ?app_assoc, ?app_nil_r; auto.
Qed.

Lemma for_products_numbers (products : list Product) (st : RunState) :
  let st' :=
    snd (for_products urlparse_netloc re_findall cfg env products st) in
  let r := results st in
  let r' := results st' in
  (List.length (errors r') + failed r
   = List.length (errors r) + failed r')%nat
  /\ (successful r'
      = successful r
        + List.length
            (flat_map (fun p => new_rows urlparse_netloc re_findall (env p) p)
               products))%nat
  /\ products_scraped r' = products_scraped r.
Proof.
  revert st. induction products as [|product rest IH]; intros st.
  - simpl. repeat split; lia.
  - pose proof (process_product_numbers (env product) product st) as P.
    next_product product st. try rewrite E in P. simpl in P.
    destruct P as (P1 & P2 & P3).
    destruct (IH st') as (I1 & I2 & I3). simpl in I1, I2, I3.
    rewrite length_app. repeat split; first [lia | congruence].
Qed.

Lemma for_products_stats (products : list Product) (st : RunState) :
  let st' :=
    snd (for_products urlparse_netloc re_findall cfg env products st) in
  let s := stats st in
  let s' := stats st' in
  (total_scrapes s' + successful_scrapes s + failed_scrapes s
   = total_scrapes s + successful_scrapes s' + failed_scrapes s')%nat
  /\ (total_scrapes s <= total_scrapes s'
      <= total_scrapes s + List.length products)%nat
  /\ (successful_scrapes s <= successful_scrapes s')%nat
  /\ (failed_scrapes s <= failed_scrapes s')%nat
  /\ (successful_scrapes s' + successful (results st)
      <= successful_scrapes s + successful (results st'))%nat
  /\ last_run s' = last_run s.
Proof.
  revert st. induction products as [|product rest IH]; intros st.
  - simpl. repeat split; lia.
  - pose proof (process_product_stats (env product) product st) as P.
    next_product product st. try rewrite E in P. simpl in P.
    destruct P as (P1 & P2 & P3 & P4 & P5 & P6).
    destruct (IH st') as (I1 & I2 & I3 & I4 & I5 & I6).
    simpl in I1, I2, I3, I4, I5, I6.
    repeat split; first [lia | congruence].
Qed.

Lemma for_products_notifications (products : list Product) (st : RunState) :
  let st' :=
    snd (for_products urlparse_netloc re_findall cfg env products st) in
  let sent :=
    List.length
      (if notification_manager cfg
       then flat_map
              (fun p => new_changes urlparse_netloc re_findall cfg (env p) p)
              products
       else []) in
  (notifications_sent (stats st) <= notifications_sent (stats st')
   <= notifications_sent (stats st) + sent)%nat
  /\ ((forall p, In p products ->
         exists b, send_price_change_notification (env p) = Ok b) ->
      notifications_sent (stats st')
      = (notifications_sent (stats st) + sent)%nat).
Proof.
  revert st. induction products as [|product rest IH]; intros st.
  - simpl. destruct (notification_manager cfg); simpl;
      repeat split; try lia; intros; lia.
  - pose proof (process_product_notifications (env product) product st) as P.
    next_product product st. try rewrite E in P. simpl in P.
    destruct P as (P1 & P2).
    destruct (IH st') as (I1 & I2). simpl in I1, I2.
    destruct (notification_manager cfg); simpl in *;
      rewrite ?length_app in *; split; try lia; intros H;
      rewrite I2, P2 by auto; lia.
Qed.

(** What follows the loop: the time of the run is recorded, and the
    summary is handed over when a change was recorded and there is a
    notification manager. *)
Lemma finish_run_effect (st : RunState) :
  let st' := snd (finish_run cfg send_scraping_summary end_time st) in
  stats st' = set_last_run end_time (stats st)
  /\ summaries st'
     = (summaries st
        ++ if match price_changes (results st) with
              | [] => false
              | _ => true
              end && notification_manager cfg
           then [results st] else [])%list.
Proof.
  unfold finish_run, Exn.bind, Exn.modify, Exn.try_except, Exn.call, Exn.ret.
  cbn. destruct (price_changes (results st)); cbn;
    rewrite ?app_nil_r; auto.
  destruct (notification_manager cfg); cbn; rewrite ?app_nil_r; auto.
  destruct send_scraping_summary; cbn; auto.
Qed.

(** The state a run over at least one product leaves. *)
Lemma run_state (stats0 : Stats) (product : Product) (rest : list Product) :
  snd (scrape_all_products urlparse_netloc re_findall cfg env
         send_scraping_summary end_time stats0 (product :: rest))
  = snd (finish_run cfg send_scraping_summary end_time
           (snd (for_products urlparse_netloc re_findall cfg env
                   (product :: rest)
                   (mkRunState
                      (mkResults (List.length (product :: rest)) 0 0 [] [])
                      stats0 [] [] [])))).
Proof.
  unfold scrape_all_products.
  set (products := product :: rest). set (st0 := mkRunState _ _ _ _ _).
  unfold Exn.bind.
  pose proof (for_products_returns urlparse_netloc re_findall cfg env
                products st0) as R.
  destruct (for_products _ _ _ _ products st0) as [r st']. simpl in R.
  now subst r.
Qed.

Lemma for_products_failed (products : list Product) (st : RunState) :
  failed
    (results
       (snd (for_products urlparse_netloc re_findall cfg env products st)))
  = (failed (results st)
     + List.length
         (filter (fun p => counted_failed urlparse_netloc re_findall (env p) p)
            products))%nat.
Proof.
  revert st. induction products as [|product rest IH]; intros st.
  - simpl. lia.
  - pose proof (process_product_failed (env product) product st) as P.
    next_product product st. simpl in P. rewrite (IH st'), P.
    destruct (counted_failed _ _ _ _); simpl; lia.
Qed.

(** The state a batch run leaves, with the statistics [stats0] before it
    and [products] in the database. *)
Local Abbreviation final stats0 products :=
  (snd (scrape_all_products urlparse_netloc re_findall cfg env
          send_scraping_summary end_time stats0 products)).

Lemma final_rows (stats0 : Stats) (products : list Product) :
  stored (final stats0 products)
  = flat_map (fun p => new_rows urlparse_netloc re_findall (env p) p)
      products.
Proof.
  destruct products as [|product rest]; [reflexivity|].
  rewrite run_state.
  destruct (finish_run_keeps cfg send_scraping_summary end_time
              (snd (for_products urlparse_netloc re_findall cfg env
                      (product :: rest)
                      (mkRunState
                         (mkResults (List.length (product :: rest)) 0 0 [] [])
                         stats0 [] [] [])))) as (-> & _).
  now destruct (for_products_lists (product :: rest)
                  (mkRunState
                     (mkResults (List.length (product :: rest)) 0 0 [] [])
                     stats0 [] [] [])) as (-> & _).
Qed.

Lemma final_changes (stats0 : Stats) (products : list Product) :
  price_changes (results (final stats0 products))
  = flat_map (fun p => new_changes urlparse_netloc re_findall cfg (env p) p)
      products
  /\ handed (final stats0 products)
     = if notification_manager cfg
       then price_changes (results (final stats0 products))
       else [].
Proof.
  destruct products as [|product rest].
  - simpl. now destruct (notification_manager cfg).
  - rewrite run_state.
    destruct (finish_run_keeps cfg send_scraping_summary end_time
                (snd (for_products urlparse_netloc re_findall cfg env
                        (product :: rest)
                        (mkRunState
                           (mkResults (List.length (product :: rest)) 0 0 [] [])
                           stats0 [] [] [])))) as (_ & -> & ->).
    destruct (for_products_lists (product :: rest)
                (mkRunState
                   (mkResults (List.length (product :: rest)) 0 0 [] [])
                   stats0 [] [] [])) as (_ & -> & -> & _).
    simpl. auto.
Qed.

(** X14: the rows a batch run appends to the [prices] table are, in the
    order of the products, one row for each product whose previous price
    could be looked up, whose scrape succeeded and whose insert returned;
    what happens to the other products has no part in it. *)
Theorem run_stores_rows (stats0 : Stats) (products : list Product) :
  stored (final stats0 products)
  = flat_map (fun p => new_rows urlparse_netloc re_findall (env p) p)
      products.
Proof. exact (final_rows stats0 products). Qed.

(** X15: the change list of a batch run holds, in the order of the
    products, the event of each product that was stored, had a previous
    price other than 0 and moved by the threshold or more; and the
    notification manager, when there is one, is handed exactly these
    events, once each and in that order. *)
Theorem run_records_changes (stats0 : Stats) (products : list Product) :
  price_changes (results (final stats0 products))
  = flat_map (fun p => new_changes urlparse_netloc re_findall cfg (env p) p)
      products
  /\ handed (final stats0 products)
     = if notification_manager cfg
       then price_changes (results (final stats0 products))
       else [].
Proof. exact (final_changes stats0 products). Qed.

(** X16: in the dict a batch run returns, there is one error text for each
    failure counted, one stored row for each success counted, no more
    change events than successes, and no more successes than products. *)
Theorem run_counts_match_lists (stats0 : Stats) (products : list Product) :
  let st := final stats0 products in
  let r := results st in
  List.length (errors r) = failed r
  /\ List.length (stored st) = successful r
  /\ (List.length (price_changes r) <= successful r)%nat
  /\ (successful r <= List.length products)%nat
  /\ products_scraped r = List.length products.
Proof.
  intros st r.
  pose proof (final_rows stats0 products) as Rows.
  destruct (final_changes stats0 products) as [Changes _].
  fold st in Rows, Changes. fold r in Changes.
  assert (N : List.length (errors r) = failed r
              /\ successful r
                 = List.length
                     (flat_map
                        (fun p => new_rows urlparse_netloc re_findall (env p) p)
                        products)
              /\ products_scraped r = List.length products).
  { subst r st. destruct products as [|product rest]; [simpl; auto|].
    rewrite run_state.
    destruct (finish_run_keeps cfg send_scraping_summary end_time
                (snd (for_products urlparse_netloc re_findall cfg env
                        (product :: rest)
                        (mkRunState
                           (mkResults (List.length (product :: rest)) 0 0 [] [])
                           stats0 [] [] [])))) as (_ & -> & _).
    destruct (for_products_numbers (product :: rest)
                (mkRunState
                   (mkResults (List.length (product :: rest)) 0 0 [] [])
                   stats0 [] [] [])) as (N1 & N2 & N3).
    simpl in N1, N2, N3 |- *. repeat split; lia. }
  destruct N as (N1 & N2 & N3).
  rewrite Rows, Changes, N2. repeat split; auto.
  - apply flat_map_shorter. intros p. apply new_changes_le_rows.
  - apply flat_map_short. intros p. unfold new_rows.
    destruct (stored_price _ _ _ _); simpl; lia.
Qed.

(** X17: a product is counted as failed exactly when no row was stored for
    it, or when its previous price is 0: the count of failures of a batch
    run is the number of such products. *)
Theorem run_failed_count (stats0 : Stats) (products : list Product) :
  failed (results (final stats0 products))
  = List.length
      (filter (fun p => counted_failed urlparse_netloc re_findall (env p) p)
         products).
Proof.
  destruct products as [|product rest]; [reflexivity|].
  rewrite run_state.
  destruct (finish_run_keeps cfg send_scraping_summary end_time
              (snd (for_products urlparse_netloc re_findall cfg env
                      (product :: rest)
                      (mkRunState
                         (mkResults (List.length (product :: rest)) 0 0 [] [])
                         stats0 [] [] [])))) as (_ & -> & _).
  now rewrite for_products_failed.
Qed.

Lemma final_stats (stats0 : Stats) (products : list Product) :
  let st := final stats0 products in
  let s' := stats st in
  (total_scrapes s' + successful_scrapes stats0 + failed_scrapes stats0
   = total_scrapes stats0 + successful_scrapes s' + failed_scrapes s')%nat
  /\ (total_scrapes stats0 <= total_scrapes s'
      <= total_scrapes stats0 + List.length products)%nat
  /\ (successful_scrapes stats0 <= successful_scrapes s')%nat
  /\ (failed_scrapes stats0 <= failed_scrapes s')%nat
  /\ (successful_scrapes s'
      <= successful_scrapes stats0 + successful (results st))%nat.
Proof.
  destruct products as [|product rest]; [simpl; repeat split; lia|].
  cbv zeta. rewrite run_state.
  set (st0 := mkRunState _ _ _ _ _).
  destruct (finish_run_effect
              (snd (for_products urlparse_netloc re_findall cfg env
                      (product :: rest) st0))) as (-> & _).
  destruct (finish_run_keeps cfg send_scraping_summary end_time
              (snd (for_products urlparse_netloc re_findall cfg env
                      (product :: rest) st0))) as (_ & -> & _).
  destruct (for_products_stats (product :: rest) st0)
    as (S1 & S2 & S3 & S4 & S5 & _).
  simpl in S1, S2, S3, S4, S5 |- *. repeat split; lia.
Qed.

(** X18: over a batch run, [self.stats] counts each product at most once:
    the total grows by what the two other counts grow by together, and by
    no more than the number of products; no count goes down; and the
    successes it counts are no more than the successes of the dict the
    run returns. *)
Theorem run_statistics (stats0 : Stats) (products : list Product) :
  let st := final stats0 products in
  let s' := stats st in
  (total_scrapes s' + successful_scrapes stats0 + failed_scrapes stats0
   = total_scrapes stats0 + successful_scrapes s' + failed_scrapes s')%nat
  /\ (total_scrapes stats0 <= total_scrapes s'
      <= total_scrapes stats0 + List.length products)%nat
  /\ (successful_scrapes stats0 <= successful_scrapes s')%nat
  /\ (failed_scrapes stats0 <= failed_scrapes s')%nat
  /\ (successful_scrapes s'
      <= successful_scrapes stats0 + successful (results st))%nat.
Proof. exact (final_stats stats0 products). Qed.

(** X19: the count of notifications grows by no more than the number of
    events handed to the notification manager; and when no hand-over
    raises it grows by exactly that number, whether the manager reports a
    delivery or not. *)
Theorem run_counts_notifications (stats0 : Stats) (products : list Product) :
  let st := final stats0 products in
  (notifications_sent stats0 <= notifications_sent (stats st)
   <= notifications_sent stats0 + List.length (handed st))%nat
  /\ ((forall p, In p products ->
         exists b, send_price_change_notification (env p) = Ok b) ->
      notifications_sent (stats st)
      = (notifications_sent stats0 + List.length (handed st))%nat).
Proof.
  destruct products as [|product rest]; [simpl; split; [lia | intros; lia]|].
  cbv zeta. rewrite run_state.
  set (st0 := mkRunState _ _ _ _ _).
  destruct (finish_run_effect
              (snd (for_products urlparse_netloc re_findall cfg env
                      (product :: rest) st0))) as (-> & _).
  destruct (finish_run_keeps cfg send_scraping_summary end_time
              (snd (for_products urlparse_netloc re_findall cfg env
                      (product :: rest) st0))) as (_ & _ & ->).
  destruct (for_products_lists (product :: rest) st0) as (_ & _ & -> & _).
  destruct (for_products_notifications (product :: rest) st0) as (N1 & N2).
  cbn [handed st0 app] in *. cbn [notifications_sent set_last_run].
  split; [exact N1 | exact N2].
Qed.

(** X20: a batch run over at least one product records its time in
    [last_run]; a run over none leaves [last_run] as it was.  The summary
    is handed to the notification manager, once and with the dict the run
    returns, exactly when the run recorded a change and there is a
    manager. *)
Theorem run_summary (stats0 : Stats) (products : list Product) :
  let st := final stats0 products in
  last_run (stats st)
  = match products with
    | [] => last_run stats0
    | _ => Some end_time
    end
  /\ summaries st
     = if match price_changes (results st) with
          | [] => false
          | _ => true
          end && notification_manager cfg
       then [results st] else [].
Proof.
  destruct products as [|product rest]; [simpl; auto|].
  cbv zeta. rewrite run_state.
  set (st0 := mkRunState _ _ _ _ _).
  destruct (finish_run_effect
              (snd (for_products urlparse_netloc re_findall cfg env
                      (product :: rest) st0))) as (-> & ->).
  destruct (finish_run_keeps cfg send_scraping_summary end_time
              (snd (for_products urlparse_netloc re_findall cfg env
                      (product :: rest) st0))) as (_ & -> & _).
  destruct (for_products_lists (product :: rest) st0) as (_ & _ & _ & ->).
  split; reflexivity.
Qed.

Lemma success_rate_bounds (s : Stats) :
  (successful_scrapes s <= total_scrapes s)%nat ->
  0 <= get_stats_success_rate s /\ get_stats_success_rate s <= 100.
Proof.
  intros H. unfold get_stats_success_rate.
  destruct (0 <? total_scrapes s)%nat eqn:E;
    [|split; [apply Qle_refl | discriminate]].
  apply Nat.ltb_lt in E.
  assert (Pt : 0 < inject_Z (Z.of_nat (total_scrapes s)))
    by (rewrite <- (Zlt_Qlt 0); lia).
  assert (Ps : 0 <= inject_Z (Z.of_nat (successful_scrapes s)))
    by (rewrite <- (Zle_Qle 0); lia).
  assert (Le : inject_Z (Z.of_nat (successful_scrapes s))
               <= inject_Z (Z.of_nat (total_scrapes s)))
    by (rewrite <- Zle_Qle; lia).
  split.
  - apply Qmult_le_0_compat; [|discriminate].
    apply Qle_shift_div_l; [exact Pt|]. now rewrite Qmult_0_l.
  - apply Qle_trans with (y := 1 * 100); [|apply Qle_refl].
    apply Qmult_le_compat_r; [|discriminate].
    apply Qle_shift_div_r; [exact Pt|]. now rewrite Qmult_1_l.
Qed.

(** X21: when the statistics before a batch run have a total that is the
    sum of their successes and failures, as those of a new scheduler have,
    the statistics after it have too, and the success rate [get_stats]
    computes from them lies between 0 and 100. *)
Theorem run_keeps_success_rate (stats0 : Stats) (products : list Product) :
  (successful_scrapes stats0 + failed_scrapes stats0)%nat
  = total_scrapes stats0 ->
  let s' := stats (final stats0 products) in
  (successful_scrapes s' + failed_scrapes s')%nat = total_scrapes s'
  /\ 0 <= get_stats_success_rate s' /\ get_stats_success_rate s' <= 100.
Proof.
  intros H s'.
  destruct (final_stats stats0 products) as (S1 & _). fold s' in S1.
  assert (T : (successful_scrapes s' + failed_scrapes s')%nat
              = total_scrapes s') by lia.
  split; [exact T|]. apply success_rate_bounds. lia.
Qed.

End WholeRun.

End RunBookkeeping.

Lemma run_keeps_success_rate_witness :
  let s' :=
    stats
      (snd (scrape_all_products simple_netloc no_matches default_config
              (fun _ => item_env (Some 100%float) "$105.00") (Ok true) 0 no_stats
              [one_product])) in
  (successful_scrapes s' + failed_scrapes s')%nat = total_scrapes s'
  /\ 0 <= get_stats_success_rate s' /\ get_stats_success_rate s' <= 100.
Proof.
  exact (run_keeps_success_rate simple_netloc no_matches default_config
           (fun _ => item_env (Some 100%float) "$105.00") (Ok true) 0 no_stats
           [one_product] eq_refl).
Defined.

(** ** The price history *)

Section DatabaseProperties.

Variable query_prices : string -> QueryOutcome.

(** X22: [get_price_change] gives a dict exactly when the query returns two
    rows or more and the price of the second newest is not 0; the dict then
    holds the newest price as current, the second newest as previous, their
    binary64 difference, and the binary64 quotient of that difference by
    the previous price, times 100.  In every other case, errors included,
    it gives [None]. *)
Theorem get_price_change_cases (url : string) :
  match get_price_change query_prices url with
  | Some c =>
      exists current previous rest,
        query_prices url = Rows (current :: previous :: rest)
        /\ PrimFloat.eqb (pe_price previous) 0 = false
        /\ pc_current_price c = pe_price current
        /\ pc_previous_price c = pe_price previous
        /\ pc_change_amount c
           = (pe_price current - pe_price previous)%float
        /\ pc_change_percentage c
           = ((pc_change_amount c / pe_price previous) * 100)%float
        /\ pc_timestamp c = pe_timestamp current
  | None =>
      forall current previous rest,
        query_prices url = Rows (current :: previous :: rest) ->
        PrimFloat.eqb (pe_price previous) 0 = true
  end.
Proof.
  unfold get_price_change, get_prices.
  destruct (query_prices url) as [entries|msg|msg]; try discriminate.
  destruct entries as [|current [|previous rest]]; try discriminate.
  cbn.
  destruct (PrimFloat.eqb (pe_price previous) 0) eqn:Z.
  - intros c p r H. injection H as <- <- <-. exact Z.
  - exists current, previous, rest. cbn. repeat split; auto.
Qed.

(** X23: when [get_price_change] gives a dict, [get_latest_price] gives the
    entry whose price is the current price of that dict. *)
Theorem latest_price_is_current (url : string) (c : PriceChange) :
  get_price_change query_prices url = Some c ->
  exists entry,
    get_latest_price query_prices url = Ok (Some entry)
    /\ pe_price entry = pc_current_price c
    /\ pe_timestamp entry = pc_timestamp c.
Proof.
  unfold get_price_change, get_latest_price, get_prices.
  destruct (query_prices url) as [entries|msg|msg]; try discriminate.
  destruct entries as [|current [|previous rest]]; try discriminate.
  cbn.
  destruct (PrimFloat.eqb (pe_price previous) 0); [discriminate|].
  intros H. injection H as <-. exists current. auto.
Qed.

End DatabaseProperties.

Lemma latest_price_is_current_witness :
  exists entry,
    get_latest_price sample_history "https://example.com/product"
    = Ok (Some entry)
    /\ pe_price entry = to_float 89.99 /\ pe_timestamp entry = 20%nat.
Proof.
  exact (latest_price_is_current sample_history "https://example.com/product"
           (mkPriceChange (to_float 89.99) (to_float 99.99)
              (to_float 89.99 - to_float 99.99)
              (((to_float 89.99 - to_float 99.99) / to_float 99.99) * 100)
              20)
           eq_refl).
Defined.

(** ** The notification manager *)

Section NotifierProperties.

Variable getenv : string -> option string.
Variable format_float : string -> float -> string.
Variable strftime : string -> nat -> string.
Variable bullet : string.

(** What the two deliveries at the end of both methods do. *)
Lemma send_both_spec (m : NotificationManager) (smtp post : Result unit)
    (subject plain telegram : string) (log : list Delivery) :
  Notifier.send_both m smtp post subject plain telegram log
  = (Ok (email_usable m && succeeded smtp
         || telegram_usable m && succeeded post),
     (log
      ++ (if email_usable m
          then [EmailTo (en_email (email_notifier m)) (recipient_email m)
                  subject plain false]
          else [])
      ++ (if telegram_usable m
          then [TelegramPost
                  (str_of (api_url (telegram_notifier m)) ++ "/sendMessage")
                  (chat_id (telegram_notifier m)) telegram "Markdown"]
          else []))%list).
Proof.
  unfold Notifier.send_both, Notifier.send_email, Notifier.send_message,
    email_usable, telegram_usable, Exn.bind, Exn.try_except, Exn.modify,
    Exn.call, Exn.ret.
  destruct (en_enabled (email_notifier m)),
    (non_empty (recipient_email m)), (tn_enabled (telegram_notifier m)),
    smtp as [[]|], post as [[]|];
    cbn [negb andb orb succeeded];
    rewrite <- ?app_assoc, ?app_nil_r; reflexivity.
Qed.

(** X24: [send_price_change_notification] and [send_scraping_summary]
    never raise; they try the mail when the mail notifier is enabled and a
    recipient is set, then Telegram when its notifier is enabled, the
    second whatever the first did; and they return true exactly when one
    of the deliveries they tried went through. *)
Theorem deliveries_of_a_notification (m : NotificationManager)
    (smtp post : Result unit) (log : list Delivery) :
  let outcome :=
    Ok (email_usable m && succeeded smtp
        || telegram_usable m && succeeded post) in
  let channels :=
    ((if email_usable m then [ViaEmail] else [])
     ++ (if telegram_usable m then [ViaTelegram] else []))%list in
  (forall change_info,
      exists sent,
        Notifier.send_price_change_notification format_float strftime m smtp
          post change_info log = (outcome, (log ++ sent)%list)
        /\ map channel_of sent = channels)
  /\ (forall now results,
         exists sent,
           Notifier.send_scraping_summary format_float strftime bullet m smtp
             post now results log = (outcome, (log ++ sent)%list)
           /\ map channel_of sent = channels).
Proof.
  intros outcome channels.
  split; intros;
    unfold Notifier.send_price_change_notification,
      Notifier.send_scraping_summary;
    rewrite send_both_spec; eexists; (split; [reflexivity|]);
    subst channels;
    destruct (email_usable m), (telegram_usable m); reflexivity.
Qed.

(** X25: a manager whose mail notifier is enabled but that has no
    recipient, and whose Telegram notifier is disabled, reports that it has
    a notification method, yet each notification returns false without
    any delivery being tried. *)
Theorem enabled_mail_without_recipient (m : NotificationManager)
    (smtp post : Result unit) (log : list Delivery)
    (change_info : ChangeInfo) :
  en_enabled (email_notifier m) = true ->
  recipient_email m = "" ->
  tn_enabled (telegram_notifier m) = false ->
  st_has_notification_method (Notifier.get_status m) = true
  /\ Notifier.send_price_change_notification format_float strftime m smtp
       post change_info log = (Ok false, log).
Proof.
  intros He Hr Ht. split.
  - unfold Notifier.get_status. simpl. now rewrite He.
  - unfold Notifier.send_price_change_notification.
    rewrite send_both_spec. unfold email_usable, telegram_usable.
    rewrite He, Hr, Ht. simpl. now rewrite app_nil_r.
Qed.

(** X26: in a manager that [NotificationManager.__init__] builds, whatever
    the configuration dicts and the environment hold, each notifier is
    enabled exactly when [get_status] reports it configured; an enabled
    Telegram notifier has the API address of its token; and a disabled
    one has none. *)
Theorem status_of_a_new_manager (email_config : option EmailConfig)
    (telegram_config : option TelegramConfig) (recipient : option string) :
  let m :=
    Notifier.NotificationManager_init getenv email_config telegram_config
      recipient in
  let status := Notifier.get_status m in
  st_email_enabled status = st_email_configured status
  /\ st_telegram_enabled status = st_telegram_configured status
  /\ api_url (telegram_notifier m)
     = if st_telegram_enabled status
       then Some ("https://api.telegram.org/bot"
                  ++ bot_token (telegram_notifier m))
       else None.
Proof.
  assert (E : forall server port email password,
             let n := Notifier.EmailNotifier_init getenv server port email
                        password in
             en_enabled n = non_empty (en_email n) && non_empty (en_password n)).
  { intros. subst n. unfold Notifier.EmailNotifier_init. simpl.
    destruct (non_empty _), (non_empty _); reflexivity. }
  assert (T : forall token chat,
             let n := Notifier.TelegramNotifier_init getenv token chat in
             tn_enabled n = non_empty (bot_token n) && non_empty (chat_id n)
             /\ api_url n
                = if tn_enabled n
                  then Some ("https://api.telegram.org/bot" ++ bot_token n)
                  else None).
  { intros. subst n. unfold Notifier.TelegramNotifier_init.
    destruct (non_empty (Notifier.from_env getenv token _)) eqn:A,
      (non_empty (Notifier.from_env getenv chat _)) eqn:B;
      simpl; rewrite ?A, ?B; auto. }
  intros m status. subst status m.
  unfold Notifier.get_status, Notifier.NotificationManager_init,
    Notifier.default_email_notifier.
  cbn [st_email_enabled st_email_configured st_telegram_enabled
       st_telegram_configured email_notifier telegram_notifier].
  split; [|split].
  - destruct email_config as [c|]; [destruct (Notifier.email_config_truthy c)|];
      apply E.
  - destruct telegram_config as [c|];
      [destruct (Notifier.telegram_config_truthy c)|]; apply T.
  - destruct telegram_config as [c|];
      [destruct (Notifier.telegram_config_truthy c)|]; apply T.
Qed.

End NotifierProperties.

Lemma enabled_mail_without_recipient_witness :
  let m := Notifier.NotificationManager_init env_mail_only None None None in
  st_has_notification_method (Notifier.get_status m) = true
  /\ Notifier.send_price_change_notification (fun _ _ => "") (fun _ _ => "")
       m (Ok tt) (Ok tt)
       (change_event (item_env (Some 100%float) "$85.00") one_product 100 85) []
     = (Ok false, []).
Proof.
  intros m.
  exact (enabled_mail_without_recipient (fun _ _ => "") (fun _ _ => "") m
           (Ok tt) (Ok tt) []
           (change_event (item_env (Some 100%float) "$85.00") one_product 100 85)
           eq_refl eq_refl eq_refl).
Defined.

(** ** More on the extractor: errors and the text scan *)

Section ErrorsAndTextScan.

Variable urlparse_netloc : string -> Result string.
Variable re_findall : string -> string -> list string.

(** X27: when starting the driver, launching the browser, opening the
    context or the page, or the navigation raises, [scrape_price] returns
    a failed dict with the URL, no price and the error "Scraping error for
    URL: text of the exception"; no selector is tried. *)
Theorem scrape_price_error_dict (page : PageEnv) (url : string)
    (css_selector : option string) (e : string) :
  first_error page = Some e ->
  scrape_price urlparse_netloc re_findall page url css_selector
  = Ok (mkScrapeResult url None false
          (Some ("Scraping error for " ++ url ++ ": " ++ e)) (pw_time page)).
Proof.
  unfold first_error, scrape_price, scrape_price_from, scrape_block,
    with_playwright, Exn.try_except, Exn.bind, Exn.call, Exn.modify, Exn.ret.
  cbn [fst snd resources result on_resources on_result].
  destruct (pw_start page) as [[]|];
    [destruct (pw_launch page) as [[]|];
     [destruct (pw_new_context page) as [[]|];
      [destruct (pw_new_page page) as [[]|];
       [destruct (pw_goto page) as [[]|]; [discriminate|]|]|]|]|];
    intros H; injection H as <-; reflexivity.
Qed.

Lemma first_plausible_step (m : string) (rest : list string) :
  first_plausible (m :: rest)
  = if plausible m then _clean_price_text m else first_plausible rest.
Proof.
  unfold plausible. cbn [first_plausible].
  destruct (_clean_price_text m) as [p|]; [|reflexivity].
  destruct (truthy (Some p) && Qle_bool 0.01 p && Qle_bool p 999999);
    reflexivity.
Qed.

(** X28: the text scan is a priority order too.  Among the matches of one
    pattern, those that do not parse or lie outside 0.01 to 999999 are
    passed over and the first one that remains gives the price; among the
    patterns, the first one, in the order of the list, that has such a
    match decides. *)
Theorem text_scan_order (text : string) :
  (forall skipped m rest,
      (forall x, In x skipped -> plausible x = false) ->
      plausible m = true ->
      first_plausible (skipped ++ m :: rest) = _clean_price_text m)
  /\ (forall before pattern after p,
         (forall x, In x before ->
                    first_plausible (re_findall x text) = None) ->
         first_plausible (re_findall pattern text) = Some p ->
         scan_patterns re_findall (before ++ pattern :: after) text = Some p).
Proof.
  split.
  - intros skipped m rest Hs Hm.
    induction skipped as [|x skipped IH]; simpl app;
      rewrite first_plausible_step.
    + now rewrite Hm.
    + rewrite (Hs x (or_introl eq_refl)). apply IH.
      intros y Hy. apply Hs. now right.
  - intros before pattern after p Hb Hp.
    induction before as [|x before IH]; simpl.
    + now rewrite Hp.
    + rewrite (Hb x (or_introl eq_refl)). apply IH.
      intros y Hy. apply Hb. now right.
Qed.

End ErrorsAndTextScan.

Lemma scrape_price_error_dict_witness :
  scrape_price simple_netloc no_matches page_unreachable
    "https://example.com/item" None
  = Ok (mkScrapeResult "https://example.com/item" None false
          (Some "Scraping error for https://example.com/item: net::ERR_NAME_NOT_RESOLVED")
          0).
Proof.
  exact (scrape_price_error_dict simple_netloc no_matches page_unreachable
           "https://example.com/item" None "net::ERR_NAME_NOT_RESOLVED"
           eq_refl).
Defined.
